(** * The workflow engine of [workflow/aggregation.go]

    A shallow embedding of [WorkFlowAggregation] and of the methods that walk
    a workflow definition: [start], [destroy], [complete], [addContext],
    [executeTask], [handleTaskError] and [handle].

    Go pointers to node records are addresses into a node memory, so that
    [CurrentNode] and the entries of [Nodes] alias the same record, as they do
    in the source.  The calls that leave the engine (persistence gateway,
    executors, ticker, deployment status) are recorded in a trace, newest
    event first.  Logging has no effect on the engine and is not modelled;
    neither are the wall-clock fields ([StartTime] and the like). *)

From Stdlib Require Import ZArith Lia.
From stdpp Require Import base option list strings gmap.

Local Open Scope string_scope.
Local Open Scope list_scope.

(** ** common/constants *)

Module constants.

(** Modelled from the spec: the package [common/constants] is not part of the
    sources at hand; the five workflow statuses are the ones section 3 of the
    specification lists for workflows and nodes. *)
Definition WorkFlowStatusInitializing : string := "Initializing".
Definition WorkFlowStatusProcessing : string := "Processing".
Definition WorkFlowStatusFinished : string := "Finished".
Definition WorkFlowStatusError : string := "Error".
Definition WorkFlowStatusCanceled : string := "Canceled".

End constants.

(** ** common/errors *)

Module errors.

(** The error codes [aggregation.go] refers to. *)
Inductive EM_ERROR_CODE : Type :=
  | TIEM_FLOW_NOT_FOUND
  | TIEM_TASK_CANCELED
  | TIEM_TASK_FAILED
  | TIEM_PANIC
  | TIEM_WORKFLOW_NODE_POLLING_TIME_OUT.

(** A Go [error] value, by the way it was built: [errors.NewError code msg]
    (also [errors.NewErrorf] once its message is formatted),
    [errors.Error code], or any other error, known by its text only
    ([fmt.Errorf], errors of executors and of the deployment service). *)
Inductive error : Type :=
  | NewError (code : EM_ERROR_CODE) (msg : string)
  | OfCode (code : EM_ERROR_CODE)
  | Errorf (text : string).

End errors.

(** ** deployment: the status oracle *)

Module deployment.

(** Modelled from the spec: the package [deployment] is not part of the
    sources at hand; section 4.5 gives the reply of [GetStatus] as
    [{status: Running|Finished|Error, result, errorStr}]. *)
Inductive Status : Type := Running | Finished | Error.

Record Operation : Type := {
  OpStatus : Status;
  Result : string;
  ErrorStr : string;
}.

End deployment.

(** ** models/workflow: the persisted records *)

Module workflow.

(** [workflow.WorkFlow], with the fields of [dbModel.Entity] the engine reads
    or writes ([ID], [TenantId], [Status]) inlined. *)
Record WorkFlow : Type := {
  ID : string;
  TenantId : string;
  Status : string;
  Name : string;
  BizID : string;
  Context : string;
}.

Record WorkFlowNode : Type := {
  NodeID : string;
  NodeTenantId : string;
  NodeStatus : string;
  NodeName : string;
  NodeBizID : string;
  ParentID : string;
  ReturnType : string;
  Result : string;
  OperationID : string;
}.

Definition with_status (s : string) (n : WorkFlowNode) : WorkFlowNode :=
  {| NodeID := NodeID n; NodeTenantId := NodeTenantId n; NodeStatus := s;
     NodeName := NodeName n; NodeBizID := NodeBizID n; ParentID := ParentID n;
     ReturnType := ReturnType n; Result := Result n;
     OperationID := OperationID n |}.

Definition with_result (r : string) (n : WorkFlowNode) : WorkFlowNode :=
  {| NodeID := NodeID n; NodeTenantId := NodeTenantId n;
     NodeStatus := NodeStatus n;
     NodeName := NodeName n; NodeBizID := NodeBizID n; ParentID := ParentID n;
     ReturnType := ReturnType n; Result := r;
     OperationID := OperationID n |}.

(** Go's zero value of the struct. *)
Definition zero : WorkFlowNode :=
  {| NodeID := ""; NodeTenantId := ""; NodeStatus := ""; NodeName := "";
     NodeBizID := ""; ParentID := ""; ReturnType := ""; Result := "";
     OperationID := "" |}.

#[export] Instance WorkFlowNode_inhabited : Inhabited WorkFlowNode :=
  populate zero.

(** Modelled from the spec: the methods of [WorkFlowNode] are not part of the
    sources at hand.  Section 3: a node goes [Processing], then [Finished] or
    [Error]. *)
Definition Processing (n : WorkFlowNode) : WorkFlowNode :=
  with_status constants.WorkFlowStatusProcessing n.

(** Modelled from the spec: [node.Success(result...)] marks the node
    [Finished], "carrying the oracle's result payload if non-empty, else no
    payload" (section 4.3).  [Success()] and [Success(nil)] both carry no
    payload ([None]); [attach] is the way a payload is written into the
    node's result. *)
Definition Success (attach : string → string → string)
    (payload : option string) (n : WorkFlowNode) : WorkFlowNode :=
  with_status constants.WorkFlowStatusFinished
    match payload with
    | Some r => with_result (attach (Result n) r) n
    | None => n
    end.

(** Modelled from the spec: [node.Fail(err)] marks the node failed with the
    error; its text ([err.Error()], here [text err]) becomes the node's
    result, which [handleTaskError] reads back as the last error. *)
Definition Fail (text : errors.error → string) (e : errors.error)
    (n : WorkFlowNode) : WorkFlowNode :=
  with_status constants.WorkFlowStatusError (with_result (text e) n).

End workflow.

Import errors workflow.

(** 32-bit signed arithmetic, for [sequence := int32(0)] and [sequence++]. *)
Definition int32 (z : Z) : Z := ((z + 2 ^ 31) mod 2 ^ 32 - 2 ^ 31)%Z.

(** ** workflow: definitions, aggregation, engine *)

(** Modelled from the spec: the declaration of [NodeReturnType] is not part
    of the sources at hand; [handle] converts it with [string(...)], and
    section 3 names its two values. *)
Definition SyncFuncNode : string := "SyncFuncNode".
Definition PollingNode : string := "PollingNode".

(** An address of a node record. *)
Abbreviation ptr := nat (only parsing).

(** The calls that leave the engine, and (for the statement of properties
    about them only) the look-ups of a successor in [TaskNodes]. *)
Inductive Event : Type :=
  | EvCreateWorkFlowNode (node : ptr)
  | EvUpdateWorkFlowDetail (flow : WorkFlow) (nodes : list WorkFlowNode)
  | EvExecutor (name : string) (node : ptr)
  | EvTick
  | EvGetStatus (operationID : string)
  | EvLookup (name : string) (found : bool).

(** Number of [GetStatus] calls in a trace. *)
Fixpoint queries (t : list Event) : nat :=
  match t with
  | [] => 0
  | EvGetStatus _ :: t => S (queries t)
  | _ :: t => queries t
  end.

(** Number of executor calls in a trace. *)
Fixpoint executions (t : list Event) : nat :=
  match t with
  | [] => 0
  | EvExecutor _ _ :: t => S (executions t)
  | _ :: t => executions t
  end.

(** Number of ticks received in a trace. *)
Fixpoint ticks (t : list Event) : nat :=
  match t with
  | [] => 0
  | EvTick :: t => S (ticks t)
  | _ :: t => ticks t
  end.

Section Engine.

(** The values of [FlowData] ([interface{}] in the source). *)
Context {Value : Type}.

(** What an executor did: the node and the flow data as it left them, and
    whether it returned (an error or nil) or panicked (with the panic value
    as ["%v"] prints it). *)
Inductive Return : Type :=
  | Returned (err : option error)
  | Panicked (v : string).

Record Outcome : Type := {
  out_node : WorkFlowNode;
  out_data : gmap string Value;
  out_ret : Return;
}.

Definition NodeExecutor : Type :=
  WorkFlowNode → gmap string Value → Outcome.

Record NodeDefine : Type := {
  DefName : string;
  SuccessEvent : string;
  FailEvent : string;
  DefReturnType : string;
  Executor : NodeExecutor;
}.

Record WorkFlowDefine : Type := {
  FlowName : string;
  TaskNodes : gmap string NodeDefine;
}.

(** [WorkFlowAggregation]; [Flow] is the record behind the pointer, which the
    aggregation owns alone; [FlowData] is the map of [Context]. *)
Record WorkFlowAggregation : Type := {
  Flow : WorkFlow;
  Define : WorkFlowDefine;
  CurrentNode : option ptr;
  Nodes : list ptr;
  FlowData : gmap string Value;
  FlowError : option error;
}.

(** The aggregation together with the node records its pointers refer to and
    the trace of the run. *)
Record Machine : Type := {
  agg : WorkFlowAggregation;
  mem : list WorkFlowNode;
  trace : list Event;
}.

(** The collaborators and the declarations that are not part of the sources
    at hand, as parameters of the engine. *)
Record Externals : Type := {
  (** [err.Error()] *)
  error_text : error → string;
  (** what [fmt.Errorf(format)] prints for a format without operands *)
  fmt_Sprintf : string → string;
  (** [json.Marshal] of the flow data; [None] when it fails *)
  json_Marshal : gmap string Value → option string;
  (** how [Success] writes a payload into the result *)
  attach_result : string → string → string;
  (** what [CreateWorkFlowNode] does to the record it is given (the k-th
      node of the run), such as filling in its ID *)
  CreateWorkFlowNode : nat → WorkFlowNode → WorkFlowNode;
  (** [deployment.M.GetStatus], as a function of the number of earlier
      queries of the run and of the operation ID *)
  GetStatus : nat → string → deployment.Operation + error;
  (** the constant [maxPollingSequence] *)
  maxPollingSequence : Z;
}.

Context (ext : Externals).

Definition success (payload : option string) : WorkFlowNode → WorkFlowNode :=
  Success (attach_result ext) payload.

Definition fail (e : error) : WorkFlowNode → WorkFlowNode :=
  Fail (error_text ext) e.

(** *** Field updates *)

Definition set_Flow (f : WorkFlow) (a : WorkFlowAggregation) :=
  {| Flow := f; Define := Define a; CurrentNode := CurrentNode a;
     Nodes := Nodes a; FlowData := FlowData a; FlowError := FlowError a |}.

Definition set_CurrentNode (p : option ptr) (a : WorkFlowAggregation) :=
  {| Flow := Flow a; Define := Define a; CurrentNode := p;
     Nodes := Nodes a; FlowData := FlowData a; FlowError := FlowError a |}.

Definition set_Nodes (l : list ptr) (a : WorkFlowAggregation) :=
  {| Flow := Flow a; Define := Define a; CurrentNode := CurrentNode a;
     Nodes := l; FlowData := FlowData a; FlowError := FlowError a |}.

Definition set_FlowData (d : gmap string Value) (a : WorkFlowAggregation) :=
  {| Flow := Flow a; Define := Define a; CurrentNode := CurrentNode a;
     Nodes := Nodes a; FlowData := d; FlowError := FlowError a |}.

Definition set_FlowError (e : option error) (a : WorkFlowAggregation) :=
  {| Flow := Flow a; Define := Define a; CurrentNode := CurrentNode a;
     Nodes := Nodes a; FlowData := FlowData a; FlowError := e |}.

Definition flow_with_status (s : string) (f : WorkFlow) : WorkFlow :=
  {| ID := ID f; TenantId := TenantId f; Status := s; Name := Name f;
     BizID := BizID f; Context := Context f |}.

Definition flow_with_context (c : string) (f : WorkFlow) : WorkFlow :=
  {| ID := ID f; TenantId := TenantId f; Status := Status f; Name := Name f;
     BizID := BizID f; Context := c |}.

Definition on_agg (f : WorkFlowAggregation → WorkFlowAggregation)
    (m : Machine) : Machine :=
  {| agg := f (agg m); mem := mem m; trace := trace m |}.

(** [flow.Flow.Status = s] *)
Definition set_status (s : string) : Machine → Machine :=
  on_agg (λ a, set_Flow (flow_with_status s (Flow a)) a).

(** Reading through the pointer [node]. *)
Definition deref (m : Machine) (node : ptr) : WorkFlowNode := mem m !!! node.

(** Writing through the pointer [node]. *)
Definition update (node : ptr) (f : WorkFlowNode → WorkFlowNode)
    (m : Machine) : Machine :=
  {| agg := agg m; mem := alter f node (mem m); trace := trace m |}.

(** [&workflow.WorkFlowNode{...}]: the new record gets the next address. *)
Definition alloc (n : WorkFlowNode) (m : Machine) : ptr * Machine :=
  (length (mem m),
   {| agg := agg m; mem := mem m ++ [n]; trace := trace m |}).

Definition emit (e : Event) (m : Machine) : Machine :=
  {| agg := agg m; mem := mem m; trace := e :: trace m |}.

(** The node history as the persistence gateway is given it. *)
Definition history (m : Machine) : list WorkFlowNode :=
  deref m <$> Nodes (agg m).

(** [models.GetWorkFlowReaderWriter().UpdateWorkFlowDetail(flow.Context,
    flow.Flow, flow.Nodes)]; its error is only logged. *)
Definition UpdateWorkFlowDetail (m : Machine) : Machine :=
  emit (EvUpdateWorkFlowDetail (Flow (agg m)) (history m)) m.

(** [flow.Define.TaskNodes[name]], [None] for Go's nil. *)
Definition successor (name : string) (m : Machine)
    : option NodeDefine * Machine :=
  let next := TaskNodes (Define (agg m)) !! name in
  (next, emit (EvLookup name (bool_decide (is_Some next))) m).

(** *** The methods *)

Definition complete (success : bool) (m : Machine) : Machine :=
  if success then set_status constants.WorkFlowStatusFinished m
  else set_status constants.WorkFlowStatusError m.

Definition destroy (reason : string) (m : Machine) : Machine :=
  let m := set_status constants.WorkFlowStatusCanceled m in
  let m :=
    match CurrentNode (agg m) with
    | Some node => update node (fail (NewError TIEM_TASK_CANCELED reason)) m
    | None => m
    end in
  UpdateWorkFlowDetail m.

Definition addContext (key : string) (value : Value) (m : Machine) : Machine :=
  let m := on_agg (λ a, set_FlowData (<[key := value]> (FlowData a)) a) m in
  match json_Marshal ext (FlowData (agg m)) with
  | None => m
  | Some data =>
      on_agg (λ a, set_Flow (flow_with_context data (Flow a)) a) m
  end.

Definition executeTask (node : ptr) (nodeDefine : NodeDefine) (m : Machine)
    : option error * Machine :=
  let m := on_agg (set_CurrentNode (Some node)) m in
  let m := on_agg (λ a, set_Nodes (Nodes a ++ [node]) a) m in
  let m := update node Processing m in
  let data := default "" (json_Marshal ext (FlowData (agg m))) in
  let m := on_agg (λ a, set_Flow (flow_with_context data (Flow a)) a) m in
  let m := UpdateWorkFlowDetail m in
  let m := emit (EvExecutor (DefName nodeDefine) node) m in
  let out := Executor nodeDefine (deref m node) (FlowData (agg m)) in
  let m := update node (λ _, out_node out) m in
  let m := on_agg (set_FlowData (out_data out)) m in
  match out_ret out with
  | Returned None => (None, m)
  | Returned (Some err) => (Some err, update node (fail err) m)
  | Panicked r =>
      let execErr := NewError TIEM_PANIC r in
      (Some execErr, update node (fail execErr) m)
  end.

(** The result of a walk that may run out of fuel: [None] when it did, with
    the machine as far as it got. *)
Definition Walk : Type := option bool * Machine.

(** [handleTaskError], over the [handle] it calls back.  The result of that
    call is dropped; the flag tells whether it returned at all. *)
Definition handleTaskError (handle : option NodeDefine → Machine → Walk)
    (node : ptr) (nodeDefine : NodeDefine) (m : Machine) : bool * Machine :=
  let m :=
    on_agg (set_FlowError
              (Some (Errorf (fmt_Sprintf ext (Result (deref m node)))))) m in
  if decide ("" ≠ FailEvent nodeDefine) then
    let '(next, m) := successor (FailEvent nodeDefine) m in
    match handle next m with
    | (Some _, m) => (true, m)
    | (None, m) => (false, m)
    end
  else (true, m).

(** The tail [flow.handleTaskError(node, nodeDefine); return false]. *)
Definition failed (handle : option NodeDefine → Machine → Walk)
    (node : ptr) (nodeDefine : NodeDefine) (m : Machine) : Walk :=
  match handleTaskError handle node nodeDefine m with
  | (true, m) => (Some false, m)
  | (false, m) => (None, m)
  end.

(** The tail
    [return flow.handle(flow.Define.TaskNodes[nodeDefine.SuccessEvent])]. *)
Definition proceed (handle : option NodeDefine → Machine → Walk)
    (nodeDefine : NodeDefine) (m : Machine) : Walk :=
  let '(next, m) := successor (SuccessEvent nodeDefine) m in
  handle next m.

(** The loop [for range ticker.C] of a polling node; each turn takes one
    tick. *)
Fixpoint polling (handle : option NodeDefine → Machine → Walk) (fuel : nat)
    (sequence : Z) (node : ptr) (nodeDefine : NodeDefine) (m : Machine)
    : Walk :=
  match fuel with
  | O => (None, m)
  | S fuel =>
      let m := emit EvTick m in
      let sequence := int32 (sequence + 1) in
      if (sequence >? maxPollingSequence ext)%Z then
        let m :=
          update node (fail (OfCode TIEM_WORKFLOW_NODE_POLLING_TIME_OUT)) m in
        failed handle node nodeDefine m
      else
        let reply :=
          GetStatus ext (queries (trace m)) (OperationID (deref m node)) in
        let m := emit (EvGetStatus (OperationID (deref m node))) m in
        match reply with
        | inr err =>
            let m :=
              update node
                (fail (NewError TIEM_TASK_FAILED (error_text ext err))) m in
            failed handle node nodeDefine m
        | inl op =>
            match deployment.OpStatus op with
            | deployment.Error =>
                let m :=
                  update node
                    (fail (NewError TIEM_TASK_FAILED (deployment.ErrorStr op)))
                    m in
                failed handle node nodeDefine m
            | deployment.Finished =>
                let m :=
                  if decide (deployment.Result op ≠ "")
                  then update node (success (Some (deployment.Result op))) m
                  else update node (success None) m in
                proceed handle nodeDefine m
            | deployment.Running => polling handle fuel sequence node nodeDefine m
            end
        end
  end.

(** The record [handle] creates for a node definition. *)
Definition new_node (flow : WorkFlow) (nodeDefine : NodeDefine) : WorkFlowNode :=
  {| NodeID := ""; NodeTenantId := TenantId flow;
     NodeStatus := constants.WorkFlowStatusInitializing;
     NodeName := DefName nodeDefine; NodeBizID := BizID flow;
     ParentID := ID flow; ReturnType := DefReturnType nodeDefine;
     Result := ""; OperationID := "" |}.

Fixpoint handle (fuel : nat) (nodeDefine : option NodeDefine) (m : Machine)
    : Walk :=
  match fuel with
  | O => (None, m)
  | S fuel =>
      match nodeDefine with
      | None => (Some true, set_status constants.WorkFlowStatusFinished m)
      | Some nodeDefine =>
          let '(node, m) := alloc (new_node (Flow (agg m)) nodeDefine) m in
          let m := update node (CreateWorkFlowNode ext node) m in
          let m := emit (EvCreateWorkFlowNode node) m in
          let '(handleError, m) := executeTask node nodeDefine m in
          match handleError with
          | Some _ => failed (handle fuel) node nodeDefine m
          | None =>
              if decide (DefReturnType nodeDefine = SyncFuncNode) then
                let m := update node (success None) m in
                proceed (handle fuel) nodeDefine m
              else if decide (DefReturnType nodeDefine = PollingNode) then
                if decide (NodeStatus (deref m node)
                           = constants.WorkFlowStatusFinished)
                then proceed (handle fuel) nodeDefine m
                else polling (handle fuel) fuel 0 node nodeDefine m
              else (Some true, m)
          end
      end
  end.

(** [start]; the result of the top-level [handle] is returned for reference
    (the source passes it to [complete] and returns nothing). *)
Definition start (fuel : nat) (m : Machine) : Walk :=
  let m := set_status constants.WorkFlowStatusProcessing m in
  let start := TaskNodes (Define (agg m)) !! "start" in
  match handle fuel start m with
  | (Some result, m) =>
      let m := complete result m in
      (Some result, UpdateWorkFlowDetail m)
  | (None, m) => (None, m)
  end.

(** *** Notions used to state the properties *)

(** The record an executor is handed by [handle]: created, passed through
    the gateway, marked [Processing]. *)
Definition node_given (nodeDefine : NodeDefine) (m : Machine) : WorkFlowNode :=
  Processing
    (CreateWorkFlowNode ext (length (mem m))
       (new_node (Flow (agg m)) nodeDefine)).

(** What the executor of [nodeDefine] does when [handle] reaches it in [m]. *)
Definition ran (nodeDefine : NodeDefine) (m : Machine) : Outcome :=
  Executor nodeDefine (node_given nodeDefine m) (FlowData (agg m)).

(** [handle] up to the return of [executeTask]: the error it returned and
    the machine at that point.  The node is at address [length (mem m)]. *)
Definition entered (nodeDefine : NodeDefine) (m : Machine)
    : option error * Machine :=
  let '(node, m) := alloc (new_node (Flow (agg m)) nodeDefine) m in
  let m := update node (CreateWorkFlowNode ext node) m in
  let m := emit (EvCreateWorkFlowNode node) m in
  executeTask node nodeDefine m.

(** The error [executeTask] returns for what the executor did. *)
Definition exec_error (r : Return) : option error :=
  match r with
  | Returned e => e
  | Panicked v => Some (NewError TIEM_PANIC v)
  end.

(** What [executeTask] makes of the node the executor left. *)
Definition settle (r : Return) (n : WorkFlowNode) : WorkFlowNode :=
  match r with
  | Returned None => n
  | Returned (Some e) => fail e n
  | Panicked v => fail (NewError TIEM_PANIC v) n
  end.

(** The machine when [executeTask] returns to [handle] (see [entered_eq]). *)
Definition entered_machine (nodeDefine : NodeDefine) (m : Machine) : Machine :=
  let node := length (mem m) in
  let out := ran nodeDefine m in
  let flow :=
    flow_with_context (default "" (json_Marshal ext (FlowData (agg m))))
      (Flow (agg m)) in
  {| agg := {| Flow := flow; Define := Define (agg m);
               CurrentNode := Some node; Nodes := Nodes (agg m) ++ [node];
               FlowData := out_data out; FlowError := FlowError (agg m) |};
     mem := mem m ++ [settle (out_ret out) (out_node out)];
     trace :=
       EvExecutor (DefName nodeDefine) node
       :: EvUpdateWorkFlowDetail flow
            ((λ p, (mem m ++ [node_given nodeDefine m]) !!! p)
               <$> (Nodes (agg m) ++ [node]))
       :: EvCreateWorkFlowNode node :: trace m |}.

(** A reply of the oracle that keeps a polling node waiting. *)
Definition running (reply : deployment.Operation + error) : Prop :=
  match reply with
  | inl op => deployment.OpStatus op = deployment.Running
  | inr _ => False
  end.

(** A reply of the oracle that ends the wait with the result [r]. *)
Definition finished (r : string) (reply : deployment.Operation + error) : Prop :=
  match reply with
  | inl op =>
      deployment.OpStatus op = deployment.Finished ∧ deployment.Result op = r
  | inr _ => False
  end.

(** [k] turns of the polling loop that found the operation running. *)
Definition waited (k : nat) (operationID : string) (m : Machine) : Machine :=
  {| agg := agg m; mem := mem m;
     trace := Nat.iter k (λ t, EvGetStatus operationID :: EvTick :: t)
                (trace m) |}.

End Engine.

Arguments NodeDefine : clear implicits.
Arguments WorkFlowDefine : clear implicits.
Arguments Externals : clear implicits.
Arguments Machine : clear implicits.
Arguments Outcome : clear implicits.

(** ** Validation of a definition *)

Section Validation.

Context {Value : Type}.

(** The successor [name] is either none (the empty name) or a key of the
    task nodes. *)
Definition names_node (nodes : gmap string (NodeDefine Value)) (name : string)
    : Prop :=
  name = "" ∨ is_Some (nodes !! name).

#[export] Instance names_node_dec nodes name : Decision (names_node nodes name).
Proof. unfold names_node. apply _. Defined.

(** Modelled from the spec: the construction of a [WorkFlowDefine] is not
    part of the sources at hand.  Section 4.1: "building a definition should
    reject (at build time) any successEvent/failEvent naming a non-existent
    node"; section 3: the events, "if non-empty, MUST name a key present in
    the owning WorkflowDefinition's taskNodes". *)
Definition validate (define : WorkFlowDefine Value) : bool :=
  bool_decide
    (map_Forall
       (λ _ d, names_node (TaskNodes define) (SuccessEvent d)
               ∧ names_node (TaskNodes define) (FailEvent d))
       (TaskNodes define)).





End Validation.

(** ** models/common: the entity hook *)

Module dbModel.

(** [dbModel.Entity], without its time stamps. *)
Record Entity : Type := {
  ID : string;
  TenantId : string;
  Status : string;
}.

(** The hook [BeforeCreate] of [Entity]; [GenerateID] is what [uuidutil.GenerateID()]
    returns when it is called.  The hook always returns a nil error. *)
Definition BeforeCreate (GenerateID : string) (e : Entity)
    : Entity * option errors.error :=
  (if decide (String.length (ID e) = 0)
   then {| ID := GenerateID; TenantId := TenantId e; Status := Status e |}
   else e,
   None).

End dbModel.

(** ** Notions for the properties of whole walks *)

(** Number of [CreateWorkFlowNode] calls in a trace. *)
Fixpoint creations (t : list Event) : nat :=
  match t with
  | [] => 0
  | EvCreateWorkFlowNode _ :: t => S (creations t)
  | _ :: t => creations t
  end.

(** An event other than the creation of a node record and the call of an
    executor. *)
Definition passive (e : Event) : Prop :=
  match e with
  | EvCreateWorkFlowNode _ | EvExecutor _ _ => False
  | _ => True
  end.

(** Every executor call in the trace comes right after the gateway was given
    the record of its node ([CreateWorkFlowNode]) and then the detail of the
    flow ([UpdateWorkFlowDetail]); the trace has the newest event first. *)
Fixpoint audited (t : list Event) : Prop :=
  match t with
  | [] => True
  | EvExecutor _ node :: t' =>
      match t' with
      | EvUpdateWorkFlowDetail _ _ :: EvCreateWorkFlowNode node' :: _ =>
          node = node'
      | _ => False
      end
      ∧ audited t'
  | _ :: t' => audited t'
  end.

Section Walks.

Context {Value : Type}.

(** [FlowContext.GetData]: the value under [key], [None] for Go's nil. *)
Definition GetData (c : gmap string Value) (key : string) : option Value :=
  c !! key.

(** [FlowContext.SetData]; the receiver is a copy of the struct, which shares
    the map, so the write is the caller's too. *)
Definition SetData (key : string) (value : Value) (c : gmap string Value)
    : gmap string Value :=
  <[key := value]> c.

(** The flow data of [NewFlowContext]. *)
Definition NewFlowContext : gmap string Value := ∅.

(** [m] continues [m0]: the node records of [m0] are all there, unchanged,
    followed by new ones; the history is that of [m0] followed by the
    addresses of the new records in order; and there was one executor call
    and one [CreateWorkFlowNode] per new record. *)
Definition continues (m0 m : Machine Value) : Prop :=
  ∃ new,
    mem m = mem m0 ++ new
    ∧ Nodes (agg m) = Nodes (agg m0) ++ seq (length (mem m0)) (length new)
    ∧ executions (trace m) = executions (trace m0) + length new
    ∧ creations (trace m) = creations (trace m0) + length new.

(** The current node is the last one of the history (none when the history
    is empty). *)
Definition current_is_last (m : Machine Value) : Prop :=
  CurrentNode (agg m) = last (Nodes (agg m)).

(** [handle'] keeps the property [P] of machines. *)
Definition keeps (P : Machine Value → Prop)
    (handle' : option (NodeDefine Value) → Machine Value → Walk) : Prop :=
  ∀ nd m, P m → P (snd (handle' nd m)).

(** The trace of [m] is [t0] with later events on top (a trace has its
    newest event first): what was recorded up to [t0] is still there. *)
Definition extends_trace (t0 : list Event) (m : Machine Value) : Prop :=
  ∃ later, trace m = later ++ t0.

(** Every node of a definition is a SyncFuncNode or a PollingNode. *)
Definition known_types (nodes : gmap string (NodeDefine Value)) : Prop :=
  map_Forall
    (λ _ d, DefReturnType d = SyncFuncNode ∨ DefReturnType d = PollingNode)
    nodes.

#[export] Instance known_types_dec nodes : Decision (known_types nodes).
Proof. unfold known_types. apply _. Defined.

(** *** createFlowWork *)

(** [createFlowWork].  The method [getInstance] and the gateway call
    [CreateWorkFlow] are not part of the sources at hand and are parameters:
    [getInstance define bizId bizType flowData] is the new aggregation, and
    [CreateWorkFlow flow] is the record as the gateway leaves it with the
    error it returns.  [define] is [None] for a nil pointer. *)
Definition createFlowWork
    (getInstance : WorkFlowDefine Value → string → string →
                   gmap string Value → @WorkFlowAggregation Value)
    (CreateWorkFlow : WorkFlow → WorkFlow * option error)
    (bizId bizType : string) (define : option (WorkFlowDefine Value))
    : option (@WorkFlowAggregation Value) * option error :=
  match define with
  | None =>
      (None, Some (NewError TIEM_FLOW_NOT_FOUND "empty workflow definition"))
  | Some define =>
      let flowData : gmap string Value := ∅ in
      let flow := getInstance define bizId bizType flowData in
      let '(record, err) := CreateWorkFlow (Flow flow) in
      match err with
      | Some err => (None, Some err)
      | None => (Some (set_Flow record flow), None)
      end
  end.

End Walks.

(** ** A concrete platform and concrete definitions *)

Module demo.

Definition text (e : error) : string :=
  match e with
  | NewError _ msg => msg
  | OfCode TIEM_WORKFLOW_NODE_POLLING_TIME_OUT => "polling time out"
  | OfCode _ => "error"
  | Errorf t => t
  end.

(** A platform whose oracle is [reply] and whose polling bound is [max]. *)
Definition platform (reply : nat → string → deployment.Operation + error)
    (max : Z) : Externals string :=
  {| error_text := text;
     fmt_Sprintf := λ format, format;
     json_Marshal := λ _, Some "{}";
     attach_result := λ _ r, r;
     CreateWorkFlowNode := λ _ n, n;
     GetStatus := reply;
     maxPollingSequence := max |}.

Definition still_running : nat → string → deployment.Operation + error :=
  λ _ _, inl {| deployment.OpStatus := deployment.Running;
                deployment.Result := ""; deployment.ErrorStr := "" |}.

(** Running on the first query, finished with ["done"] from the second. *)
Definition done_at_second : nat → string → deployment.Operation + error :=
  λ i _,
    match i with
    | O => inl {| deployment.OpStatus := deployment.Running;
                  deployment.Result := ""; deployment.ErrorStr := "" |}
    | _ => inl {| deployment.OpStatus := deployment.Finished;
                  deployment.Result := "done"; deployment.ErrorStr := "" |}
    end.

Definition ok : @NodeExecutor string :=
  λ n d, {| out_node := n; out_data := d; out_ret := Returned None |}.

Definition broken : @NodeExecutor string :=
  λ n d, {| out_node := n; out_data := d;
            out_ret := Returned (Some (Errorf "boom")) |}.


(** An executor that marks its node finished itself. *)
Definition eager : @NodeExecutor string :=
  λ n d, {| out_node := with_status constants.WorkFlowStatusFinished n;
            out_data := d; out_ret := Returned None |}.

Definition node (name successEvent failEvent returnType : string)
    (executor : @NodeExecutor string) : NodeDefine string :=
  {| DefName := name; SuccessEvent := successEvent; FailEvent := failEvent;
     DefReturnType := returnType; Executor := executor |}.

Definition define (nodes : list (NodeDefine string)) : WorkFlowDefine string :=
  {| FlowName := "demo";
     TaskNodes := list_to_map ((λ d, (DefName d, d)) <$> nodes) |}.

(** A workflow that was created and not started. *)
Definition created (nodes : list (NodeDefine string)) : Machine string :=
  {| agg := {| Flow := {| ID := "flow-1"; TenantId := "tenant";
                          Status := constants.WorkFlowStatusInitializing;
                          Name := "demo"; BizID := "cluster-1";
                          Context := "" |};
               Define := define nodes; CurrentNode := None; Nodes := [];
               FlowData := ∅; FlowError := None |};
     mem := []; trace := [] |}.

(** The platform with an oracle that never finishes and three turns. *)
Definition quiet : Externals string := platform still_running 3.

(** The platform with an oracle that finishes on the second query. *)
Definition prompt : Externals string := platform done_at_second 3.

Definition start_node := node "start" "" "cleanup" SyncFuncNode broken.
Definition cleanup_node := node "cleanup" "" "" SyncFuncNode ok.
Definition wait_node := node "start" "" "" PollingNode ok.
Definition plain_node := node "start" "next" "" SyncFuncNode ok.
Definition odd_node := node "start" "next" "" "Callback" eager.
Definition dangling := node "start" "missing" "" SyncFuncNode ok.
Definition lone_broken := node "start" "next" "" SyncFuncNode broken.
Definition lone_callback := node "start" "next" "" "Callback" ok.

(** The scenario of a failing start node with a clean-up node. *)
Definition with_cleanup : Machine string := created [start_node; cleanup_node].

(** A workflow whose only node is being executed. *)
Definition in_flight : Machine string :=
  snd (entered quiet plain_node (created [plain_node])).

(** An oracle that cannot be reached, and one that reports a failed
    operation. *)
Definition unreachable : nat → string → deployment.Operation + error :=
  λ _ _, inr (Errorf "unreachable").

Definition disk_full : nat → string → deployment.Operation + error :=
  λ _ _, inl {| deployment.OpStatus := deployment.Error;
                deployment.Result := ""; deployment.ErrorStr := "disk full" |}.

Definition offline : Externals string := platform unreachable 3.
Definition faulty : Externals string := platform disk_full 3.

(** A platform whose polling bound is the largest 32-bit integer. *)
Definition unbounded : Externals string :=
  platform still_running (2 ^ 31 - 1).

Definition eager_wait := node "start" "" "" PollingNode eager.

(** A node that names itself as its successor. *)
Definition loop := node "start" "start" "" SyncFuncNode ok.

(** A clean-up node that waits for an operation of the platform. *)
Definition waiting_cleanup := node "cleanup" "" "" PollingNode ok.

(** The failing start node with the waiting clean-up node. *)
Definition with_waiting_cleanup : Machine string :=
  created [start_node; waiting_cleanup].

End demo.

(** ** Facts about one step of the walk *)

Section Facts.

Context {Value : Type} (ext : Externals Value).

Implicit Types (m : Machine Value) (d : NodeDefine Value).

Lemma alter_fresh {A} (f : A → A) (l : list A) (x : A) :
  alter f (length l) (l ++ [x]) = l ++ [f x].
Proof.
  rewrite alter_app_r_alt by lia. by rewrite Nat.sub_diag.
Qed.

Lemma lookup_total_fresh (l : list WorkFlowNode) (x : WorkFlowNode) :
  (l ++ [x]) !!! length l = x.
Proof.
  rewrite lookup_total_app_r by lia. by rewrite Nat.sub_diag.
Qed.

Lemma entered_eq d m :
  entered ext d m
  = (exec_error (out_ret (ran ext d m)), entered_machine ext d m).
Proof.
  cbv [entered entered_machine executeTask ran node_given alloc
       UpdateWorkFlowDetail history update emit on_agg deref
       agg mem trace fst snd Flow Define CurrentNode Nodes FlowData FlowError
       set_CurrentNode set_Nodes set_Flow set_FlowData].
  rewrite !alter_fresh, lookup_total_fresh.
  destruct (out_ret _) as [[e|]|v]; cbn [exec_error settle];
    rewrite ?alter_fresh; reflexivity.
Qed.

Lemma handle_nil fuel m :
  handle ext (S fuel) None m
  = (Some true, set_status constants.WorkFlowStatusFinished m).
Proof. reflexivity. Qed.

Lemma handle_entered fuel d m :
  handle ext (S fuel) (Some d) m =
  let node := length (mem m) in
  let '(handleError, m1) := entered ext d m in
  match handleError with
  | Some _ => failed ext (handle ext fuel) node d m1
  | None =>
      if decide (DefReturnType d = SyncFuncNode) then
        proceed (handle ext fuel) d (update node (success ext None) m1)
      else if decide (DefReturnType d = PollingNode) then
        if decide (NodeStatus (deref m1 node)
                   = constants.WorkFlowStatusFinished)
        then proceed (handle ext fuel) d m1
        else polling ext (handle ext fuel) fuel 0 node d m1
      else (Some true, m1)
  end.
Proof. reflexivity. Qed.

Lemma handle_node fuel d m :
  handle ext (S fuel) (Some d) m =
  let node := length (mem m) in
  let m1 := entered_machine ext d m in
  match exec_error (out_ret (ran ext d m)) with
  | Some _ => failed ext (handle ext fuel) node d m1
  | None =>
      if decide (DefReturnType d = SyncFuncNode) then
        proceed (handle ext fuel) d (update node (success ext None) m1)
      else if decide (DefReturnType d = PollingNode) then
        if decide (NodeStatus (deref m1 node)
                   = constants.WorkFlowStatusFinished)
        then proceed (handle ext fuel) d m1
        else polling ext (handle ext fuel) fuel 0 node d m1
      else (Some true, m1)
  end.
Proof. rewrite handle_entered, entered_eq. reflexivity. Qed.

Lemma deref_entered d m :
  deref (entered_machine ext d m) (length (mem m))
  = settle ext (out_ret (ran ext d m)) (out_node (ran ext d m)).
Proof. unfold deref, entered_machine; simpl. apply lookup_total_fresh. Qed.

Lemma deref_update_fresh (f : WorkFlowNode → WorkFlowNode) d m :
  deref (update (length (mem m)) f (entered_machine ext d m)) (length (mem m))
  = f (settle ext (out_ret (ran ext d m)) (out_node (ran ext d m))).
Proof.
  unfold deref, update, entered_machine; simpl.
  by rewrite alter_fresh, lookup_total_fresh.
Qed.

Lemma trace_entered d m :
  ∃ flow nodes,
    trace (entered_machine ext d m)
    = EvExecutor (DefName d) (length (mem m))
      :: EvUpdateWorkFlowDetail flow nodes
      :: EvCreateWorkFlowNode (length (mem m)) :: trace m.
Proof. unfold entered_machine; simpl. eauto. Qed.

Lemma status_fail e n : NodeStatus (fail ext e n) = constants.WorkFlowStatusError.
Proof. reflexivity. Qed.

Lemma result_fail e n : workflow.Result (fail ext e n) = error_text ext e.
Proof. reflexivity. Qed.

Lemma status_success p n :
  NodeStatus (success ext p n) = constants.WorkFlowStatusFinished.
Proof. reflexivity. Qed.

(** *** The claims about a single node *)

(** C1. [handle] of a nil node definition returns true and sets the status
    of the workflow to Finished; it creates no node record (the node memory
    and the node history are unchanged) and calls nothing outside the engine,
    no executor in particular (the trace is unchanged). *)
Theorem handle_nil_finishes fuel m :
  let r := handle ext (S fuel) None m in
  fst r = Some true
  ∧ Status (Flow (agg (snd r))) = constants.WorkFlowStatusFinished
  ∧ mem (snd r) = mem m
  ∧ Nodes (agg (snd r)) = Nodes (agg m)
  ∧ CurrentNode (agg (snd r)) = CurrentNode (agg m)
  ∧ trace (snd r) = trace m.
Proof. by rewrite handle_nil. Qed.

(** C5. When the executor of a SyncFuncNode returns no error, [handle] marks
    the node a success and goes on with [handle] of the node that
    [successEvent] names; when there is no such node the walk ends there with
    success. *)
Theorem sync_node_proceeds fuel d m :
  DefReturnType d = SyncFuncNode →
  out_ret (ran ext d m) = Returned None →
  let node := length (mem m) in
  let next := TaskNodes (Define (agg m)) !! SuccessEvent d in
  let m2 := update node (success ext None) (entered_machine ext d m) in
  let m3 := emit (EvLookup (SuccessEvent d) (bool_decide (is_Some next))) m2 in
  deref m2 node = success ext None (out_node (ran ext d m))
  ∧ NodeStatus (deref m2 node) = constants.WorkFlowStatusFinished
  ∧ handle ext (S fuel) (Some d) m = handle ext fuel next m3
  ∧ (next = None →
     handle ext (S (S fuel)) (Some d) m
     = (Some true, set_status constants.WorkFlowStatusFinished m3)).
Proof.
  intros Hsync Hret node next m2 m3.
  assert (Hstep : ∀ k, handle ext (S k) (Some d) m = handle ext k next m3).
  { intros k. rewrite handle_node, Hret. cbn [exec_error].
    by rewrite decide_True. }
  split_and!.
  - subst m2 node. by rewrite deref_update_fresh, Hret.
  - subst m2 node. by rewrite deref_update_fresh.
  - apply Hstep.
  - intros Hnone. rewrite Hstep, Hnone. apply handle_nil.
Qed.

(** C6. When the executor returns an error, [handle] does not go on to the
    success event: the node is failed with that error, the error is recorded
    as the error of the flow, and then either the fail event is empty and
    [handle] returns false with nothing else done, or [handle] is called on
    the node the fail event names and, once that returns, [handle] returns
    false whatever the result was. *)
Theorem executor_error_takes_fail_path fuel d m e :
  out_ret (ran ext d m) = Returned (Some e) →
  let node := length (mem m) in
  let m1 := entered_machine ext d m in
  let m2 :=
    on_agg (set_FlowError (Some (Errorf (fmt_Sprintf ext (error_text ext e)))))
      m1 in
  let next := TaskNodes (Define (agg m)) !! FailEvent d in
  deref m1 node = fail ext e (out_node (ran ext d m))
  ∧ (FailEvent d = "" →
     handle ext (S fuel) (Some d) m = (Some false, m2)
     ∧ executions (trace m2) = S (executions (trace m)))
  ∧ (FailEvent d ≠ "" →
     handle ext (S fuel) (Some d) m
     = match
         handle ext fuel next
           (emit (EvLookup (FailEvent d) (bool_decide (is_Some next))) m2)
       with
       | (Some _, m') => (Some false, m')
       | (None, m') => (None, m')
       end).
Proof.
  intros Hret node next m1 m2.
  assert (Hnode : deref (entered_machine ext d m) node
                  = fail ext e (out_node (ran ext d m))).
  { subst node. by rewrite deref_entered, Hret. }
  assert (Hstep : handle ext (S fuel) (Some d) m
                  = failed ext (handle ext fuel) node d (entered_machine ext d m)).
  { by rewrite handle_node, Hret. }
  split_and!; [done | |].
  - intros Hempty. split.
    + rewrite Hstep. unfold failed, handleTaskError.
      rewrite Hnode, result_fail, Hempty. by rewrite decide_False by (intros Hne; by apply Hne).
    + reflexivity.
  - intros Hfail. rewrite Hstep. unfold failed, handleTaskError.
    rewrite Hnode, result_fail. rewrite decide_True by done.
    unfold successor. cbn [agg on_agg entered_machine Define set_FlowError].
    by destruct (handle ext fuel _ _) as [[b|] m'].
Qed.


(** C8. [destroy] sets the status of the workflow to Canceled; when there is
    a current node it fails that node, and no other, with the canceled error
    that carries the reason; when there is none the node records are left as
    they are.  The detail is then handed to the gateway. *)
Theorem destroy_cancels reason m :
  let m' := destroy ext reason m in
  let canceled := NewError TIEM_TASK_CANCELED reason in
  Status (Flow (agg m')) = constants.WorkFlowStatusCanceled
  ∧ agg m'
    = set_Flow (flow_with_status constants.WorkFlowStatusCanceled
                  (Flow (agg m))) (agg m)
  ∧ match CurrentNode (agg m) with
    | Some node =>
        mem m' = alter (fail ext canceled) node (mem m)
        ∧ (∀ n, mem m !! node = Some n →
                mem m' !! node = Some (fail ext canceled n)
                ∧ NodeStatus (fail ext canceled n)
                  = constants.WorkFlowStatusError
                ∧ workflow.Result (fail ext canceled n)
                  = error_text ext canceled)
        ∧ (∀ other, other ≠ node → mem m' !! other = mem m !! other)
    | None => mem m' = mem m
    end
  ∧ trace m' = EvUpdateWorkFlowDetail (Flow (agg m')) (history m') :: trace m.
Proof.
  unfold destroy, set_status, on_agg, UpdateWorkFlowDetail, emit; simpl.
  destruct (CurrentNode (agg m)) as [node|]; simpl; split_and!; try done.
  - intros n Hn. split_and!; try done.
    by rewrite list_lookup_alter_eq, Hn.
  - intros other Hne. by rewrite list_lookup_alter_ne.
Qed.

(** C10, as amended.  For a node whose return type is neither SyncFuncNode
    nor PollingNode and whose executor returns no error, [handle] returns
    true right after [executeTask]: it does not mark the node, looks up no
    successor and runs no other executor, and the node record is as the
    executor left it, in Processing status if the executor did not change the
    status. *)
Theorem other_return_type_stops fuel d m :
  DefReturnType d ≠ SyncFuncNode →
  DefReturnType d ≠ PollingNode →
  out_ret (ran ext d m) = Returned None →
  let node := length (mem m) in
  let r := handle ext (S fuel) (Some d) m in
  r = (Some true, entered_machine ext d m)
  ∧ deref (snd r) node = out_node (ran ext d m)
  ∧ (NodeStatus (out_node (ran ext d m))
     = NodeStatus (node_given ext d m) →
     NodeStatus (deref (snd r) node) = constants.WorkFlowStatusProcessing)
  ∧ executions (trace (snd r)) = S (executions (trace m))
  ∧ (∀ name found, EvLookup name found ∈ trace (snd r) →
                   EvLookup name found ∈ trace m).
Proof.
  intros Hs Hp Hret node r.
  assert (Hr : r = (Some true, entered_machine ext d m)).
  { subst r. rewrite handle_node, Hret. cbn [exec_error].
    by rewrite !decide_False. }
  rewrite Hr. cbn [fst snd]. subst node.
  rewrite deref_entered, Hret. cbn [settle].
  split_and!; try done.
  intros name found. cbn [trace entered_machine].
    rewrite !elem_of_cons. intros [[=]|[[=]|[[=]|?]]]. done.
Qed.

(** *** The polling loop *)

Lemma int32_id (z : Z) : (- 2 ^ 31 ≤ z < 2 ^ 31)%Z → int32 z = z.
Proof.
  intros Hz. unfold int32.
  rewrite Z.mod_small by lia. lia.
Qed.

Lemma deref_emit e m node : deref (emit e m) node = deref m node.
Proof. reflexivity. Qed.

Lemma waited_succ k operationID m :
  waited (S k) operationID m
  = waited k operationID (emit (EvGetStatus operationID) (emit EvTick m)).
Proof.
  unfold waited, emit; cbn [agg mem trace]. f_equal.
  apply (Nat.iter_succ_r k (λ t, EvGetStatus operationID :: EvTick :: t)).
Qed.

Lemma queries_waited k operationID m :
  queries (trace (waited k operationID m)) = queries (trace m) + k.
Proof.
  unfold waited; simpl. induction k as [|k IH]; simpl; lia.
Qed.

Lemma ticks_waited k operationID m :
  ticks (trace (waited k operationID m)) = ticks (trace m) + k.
Proof.
  unfold waited; simpl. induction k as [|k IH]; simpl; lia.
Qed.

Lemma executions_waited k operationID m :
  executions (trace (waited k operationID m)) = executions (trace m).
Proof.
  unfold waited; simpl. induction k as [|k IH]; simpl; lia.
Qed.

Lemma deref_waited k operationID m node :
  deref (waited k operationID m) node = deref m node.
Proof. reflexivity. Qed.

(** [k] turns on which the oracle says running leave the loop where it was,
    [k] ticks and [k] queries later. *)
Lemma polling_waits handle' k fuel sequence node d m :
  (0 ≤ sequence)%Z →
  (sequence + Z.of_nat k ≤ maxPollingSequence ext)%Z →
  (maxPollingSequence ext < 2 ^ 31)%Z →
  (∀ j, j < k →
        running (GetStatus ext (queries (trace m) + j)
                   (OperationID (deref m node)))) →
  polling ext handle' (k + fuel) sequence node d m
  = polling ext handle' fuel (sequence + Z.of_nat k) node d
      (waited k (OperationID (deref m node)) m).
Proof.
  revert sequence m. induction k as [|k IH]; intros sequence m Hseq Hmax H31 Hrun.
  - simpl. rewrite Z.add_0_r. by destruct m.
  - rewrite waited_succ. cbn [Nat.add polling].
    rewrite int32_id by lia.
    destruct (Z.gtb_spec (sequence + 1) (maxPollingSequence ext)) as [?|_];
      [lia|].
    rewrite deref_emit.
    pose proof (Hrun 0 ltac:(lia)) as H0. rewrite Nat.add_0_r in H0.
    cbn [trace emit queries].
    destruct (GetStatus ext (queries (trace m)) _) as [op|err]; [|done].
    simpl in H0. rewrite H0.
    rewrite IH; [| lia | lia | done |].
    + f_equal. lia.
    + intros j Hj. cbn [trace emit queries]. rewrite !deref_emit.
      specialize (Hrun (S j) ltac:(lia)).
      by replace (S (queries (trace m)) + j) with (queries (trace m) + S j)
        by lia.
Qed.

(** The turn after the last allowed one fails the node without a query. *)
Lemma polling_times_out handle' fuel node d m :
  (0 ≤ maxPollingSequence ext < 2 ^ 31 - 1)%Z →
  polling ext handle' (S fuel) (maxPollingSequence ext) node d m
  = failed ext handle' node d
      (update node (fail ext (OfCode TIEM_WORKFLOW_NODE_POLLING_TIME_OUT))
         (emit EvTick m)).
Proof.
  intros Hmax. cbn [polling]. rewrite int32_id by lia.
  by destruct (Z.gtb_spec (maxPollingSequence ext + 1) (maxPollingSequence ext));
    [|lia].
Qed.

(** A turn on which the oracle says finished marks the node and goes on. *)
Lemma polling_finishes handle' fuel sequence node d m r :
  (0 ≤ sequence < maxPollingSequence ext)%Z →
  (maxPollingSequence ext < 2 ^ 31)%Z →
  finished r (GetStatus ext (queries (trace m)) (OperationID (deref m node))) →
  polling ext handle' (S fuel) sequence node d m
  = proceed handle' d
      (update node
         (success ext (if decide (r ≠ "") then Some r else None))
         (emit (EvGetStatus (OperationID (deref m node))) (emit EvTick m))).
Proof.
  intros Hseq H31 Hfin. cbn [polling]. rewrite int32_id by lia.
  destruct (Z.gtb_spec (sequence + 1) (maxPollingSequence ext)) as [?|_];
    [lia|].
  rewrite deref_emit. cbn [trace emit queries].
  destruct (GetStatus ext (queries (trace m)) _) as [op|err]; [|done].
  destruct Hfin as [-> <-]. by destruct (decide _).
Qed.

(** C3. A PollingNode whose executor returns no error and leaves the node
    unfinished, with an oracle that always says running and a bound
    [maxPollingSequence] between 0 and the largest 32-bit integer less one:
    the oracle is asked exactly [maxPollingSequence] times, on the ticks 1 to
    [maxPollingSequence]; on the next tick the node is failed with the
    polling-time-out error and no further query, the task-error handler is
    called and [handle] does not return true; it returns false as soon as
    the handler returns, at once when there is no fail event. *)
Theorem polling_node_times_out fuel d m :
  DefReturnType d = PollingNode →
  out_ret (ran ext d m) = Returned None →
  NodeStatus (out_node (ran ext d m)) ≠ constants.WorkFlowStatusFinished →
  (∀ i operationID, running (GetStatus ext i operationID)) →
  (0 ≤ maxPollingSequence ext < 2 ^ 31 - 1)%Z →
  let node := length (mem m) in
  let max := Z.to_nat (maxPollingSequence ext) in
  let timeout := OfCode TIEM_WORKFLOW_NODE_POLLING_TIME_OUT in
  let m1 := entered_machine ext d m in
  let m2 :=
    emit EvTick (waited max (OperationID (out_node (ran ext d m))) m1) in
  let m3 := update node (fail ext timeout) m2 in
  let r := handle ext (S (max + S fuel)) (Some d) m in
  queries (trace m2) = queries (trace m) + max
  ∧ ticks (trace m2) = ticks (trace m) + max + 1
  ∧ deref m3 node = fail ext timeout (out_node (ran ext d m))
  ∧ r = failed ext (handle ext (max + S fuel)) node d m3
  ∧ fst r ≠ Some true
  ∧ (FailEvent d = "" →
     r = (Some false,
          on_agg (set_FlowError
                    (Some (Errorf (fmt_Sprintf ext (error_text ext timeout)))))
            m3)
     ∧ queries (trace (snd r)) = queries (trace m) + max
     ∧ executions (trace (snd r)) = S (executions (trace m))).
Proof.
  intros Hpoll Hret Hstatus Hrun Hmax node max timeout m1 m2 m3 r.
  assert (Hnode : deref m1 node = out_node (ran ext d m)).
  { subst m1 node. by rewrite deref_entered, Hret. }
  assert (Hnode3 : deref m3 node = fail ext timeout (out_node (ran ext d m))).
  { subst m3 m2 m1 node. unfold deref, update, emit, waited, entered_machine.
    cbn [mem]. rewrite alter_fresh, lookup_total_fresh. by rewrite Hret. }
  assert (Hr : r = failed ext (handle ext (max + S fuel)) node d m3).
  { subst r. rewrite handle_node, Hret. cbn [exec_error].
    rewrite decide_False by (rewrite Hpoll; done).
    rewrite decide_True by done.
    fold m1 node. rewrite decide_False by (by rewrite Hnode).
    rewrite polling_waits; [| lia | lia | lia |].
    - rewrite Z.add_0_l. subst max. rewrite Z2Nat.id by lia.
      rewrite polling_times_out by done. by rewrite Hnode.
    - intros j _. apply Hrun. }
  assert (Hq : queries (trace m2) = queries (trace m) + max).
  { subst m2. cbn [trace emit queries]. by rewrite queries_waited. }
  split_and!.
  - done.
  - subst m2. cbn [trace emit ticks]. rewrite ticks_waited.
    subst m1. cbn [trace entered_machine ticks]. lia.
  - done.
  - done.
  - rewrite Hr. unfold failed.
    by destruct (handleTaskError _ _ _ _ _) as [[] ?].
  - intros Hempty.
    assert (Hr' : r = (Some false,
          on_agg (set_FlowError
                    (Some (Errorf (fmt_Sprintf ext (error_text ext timeout)))))
            m3)).
    { rewrite Hr. unfold failed, handleTaskError.
      rewrite Hnode3, result_fail, Hempty.
      by rewrite decide_False by (intros Hne; by apply Hne). }
    rewrite Hr'. cbn [snd]. split_and!; [done | exact Hq |].
    subst m3 m2. cbn [trace on_agg update emit executions].
    by rewrite executions_waited.
Qed.

(** *** A failing start node with a clean-up node *)

Lemma start_eq fuel m :
  start ext fuel m =
  match
    handle ext fuel (TaskNodes (Define (agg m)) !! "start")
      (set_status constants.WorkFlowStatusProcessing m)
  with
  | (Some result, m') => (Some result, UpdateWorkFlowDetail (complete result m'))
  | (None, m') => (None, m')
  end.
Proof. reflexivity. Qed.

Lemma failed_not_true handle' node d m :
  fst (failed ext handle' node d m) ≠ Some true.
Proof.
  unfold failed. by destruct (handleTaskError _ _ _ _ _) as [[] ?].
Qed.

(** Whatever the fail path does, a walk whose first executor fails does not
    report success, and [start] then leaves the status Error. *)
Lemma start_error fuel sd m b m' :
  TaskNodes (Define (agg m)) !! "start" = Some sd →
  exec_error
    (out_ret (ran ext sd (set_status constants.WorkFlowStatusProcessing m)))
  ≠ None →
  start ext fuel m = (Some b, m') →
  b = false ∧ Status (Flow (agg m')) = constants.WorkFlowStatusError.
Proof.
  intros Hstart Herr. rewrite start_eq, Hstart.
  destruct fuel as [|fuel]; [done|].
  rewrite handle_node.
  destruct (exec_error _) as [e|]; [|done].
  pose proof (failed_not_true (handle ext fuel)
                (length (mem (set_status constants.WorkFlowStatusProcessing m)))
                sd
                (entered_machine ext sd
                   (set_status constants.WorkFlowStatusProcessing m))) as Hf.
  cbv zeta.
  destruct (failed _ _ _ _ _) as [[[]|] mf]; [done | | done].
  intros [= <- <-]. done.
Qed.

(** *** Walks over a validated definition *)












(** *** Properties kept by every step of a walk *)

Section Invariant.

(** A property [P] of machines, and a property [R] of the addresses whose
    records a walk may write, such that every step of a walk keeps [P]. *)
Variable P : Machine Value → Prop.
Variable R : nat → Prop.

Hypothesis P_status : ∀ s m, P m → P (set_status s m).
Hypothesis P_entered : ∀ d m, P m → P (entered_machine ext d m).
Hypothesis P_fresh : ∀ m, P m → R (length (mem m)).
Hypothesis P_update : ∀ f node m, R node → P m → P (update node f m).
Hypothesis P_emit : ∀ e m, passive e → P m → P (emit e m).
Hypothesis P_error : ∀ e m, P m → P (on_agg (set_FlowError (Some e)) m).

Lemma keeps_proceed handle' d m :
  keeps P handle' → P m → P (snd (proceed handle' d m)).
Proof.
  intros Hkeep Hm. unfold proceed, successor.
  apply Hkeep. by apply P_emit.
Qed.

Lemma keeps_failed handle' node d m :
  keeps P handle' → P m → P (snd (failed ext handle' node d m)).
Proof.
  intros Hkeep Hm. unfold failed, handleTaskError.
  set (m1 := on_agg _ m).
  assert (Hm1 : P m1) by by apply P_error.
  destruct (decide ("" ≠ FailEvent d)); [|done].
  unfold successor.
  set (m2 := emit _ m1).
  assert (Hm2 : P m2) by by apply P_emit.
  specialize (Hkeep (TaskNodes (Define (agg m1)) !! FailEvent d) m2 Hm2).
  by destruct (handle' _ m2) as [[b|] m3].
Qed.

Lemma keeps_polling handle' fuel sequence node d m :
  keeps P handle' → R node → P m →
  P (snd (polling ext handle' fuel sequence node d m)).
Proof.
  intros Hkeep Hnode. revert sequence m.
  induction fuel as [|fuel IH]; intros sequence m Hm; [done|].
  cbn [polling].
  assert (Htick : P (emit EvTick m)) by by apply P_emit.
  destruct (_ >? _)%Z.
  { apply keeps_failed; [done|]. by apply P_update. }
  set (m1 := emit (EvGetStatus _) _).
  assert (Hm1 : P m1) by by apply P_emit.
  destruct (GetStatus ext _ _) as [op|err].
  - destruct (deployment.OpStatus op).
    + by apply IH.
    + apply keeps_proceed; [done|].
      destruct (decide _); by apply P_update.
    + apply keeps_failed; [done|]. by apply P_update.
  - apply keeps_failed; [done|]. by apply P_update.
Qed.

Lemma keeps_handle fuel : keeps P (handle ext fuel).
Proof.
  induction fuel as [|fuel IH]; intros nd m Hm; [done|].
  destruct nd as [d|]; [|by apply P_status].
  rewrite handle_node. cbv zeta.
  pose proof (P_fresh m Hm) as Hnode.
  assert (Hm1 : P (entered_machine ext d m)) by by apply P_entered.
  destruct (exec_error _).
  { by apply keeps_failed. }
  repeat case_decide.
  - apply keeps_proceed; [done|]. by apply P_update.
  - by apply keeps_proceed.
  - by apply keeps_polling.
  - done.
Qed.

(** The same from the machine in which the executor of a node has run. *)
Lemma keeps_handle_entered fuel d m :
  R (length (mem m)) → P (entered_machine ext d m) →
  P (snd (handle ext (S fuel) (Some d) m)).
Proof.
  intros Hnode Hm1. rewrite handle_node. cbv zeta.
  pose proof (keeps_handle fuel) as Hkeep.
  destruct (exec_error _).
  { by apply keeps_failed. }
  repeat case_decide.
  - apply keeps_proceed; [done|]. by apply P_update.
  - by apply keeps_proceed.
  - by apply keeps_polling.
  - done.
Qed.

Lemma keeps_start fuel m : P m → P (snd (start ext fuel m)).
Proof.
  intros Hm. rewrite start_eq.
  pose proof (keeps_handle fuel (TaskNodes (Define (agg m)) !! "start")
                (set_status constants.WorkFlowStatusProcessing m)
                (P_status _ _ Hm)) as Hwalk.
  destruct (handle ext fuel _ _) as [[b|] m']; [|done].
  cbn [snd] in *. unfold UpdateWorkFlowDetail.
  apply P_emit; [done|]. destruct b; by apply P_status.
Qed.

End Invariant.

(** *** The node records and the history only grow *)

Lemma continues_refl m : continues m m.
Proof.
  exists []. cbn [length seq]. by rewrite !app_nil_r, !Nat.add_0_r.
Qed.

Lemma continues_length m0 m :
  continues m0 m → (length (mem m0) ≤ length (mem m))%nat.
Proof. intros (new & -> & _). rewrite length_app. lia. Qed.

Lemma continues_entered m0 d m :
  continues m0 m → continues m0 (entered_machine ext d m).
Proof.
  intros (new & Hmem & Hnodes & Hexec & Hcreate).
  exists (new ++ [settle ext (out_ret (ran ext d m)) (out_node (ran ext d m))]).
  cbn [mem agg Nodes trace entered_machine executions creations].
  rewrite Hmem, Hnodes, Hexec, Hcreate, !length_app. cbn [length].
  rewrite Nat.add_1_r, seq_S, !app_assoc.
  split_and!; [done | done | lia | lia].
Qed.

Lemma continues_update m0 f node m :
  (length (mem m0) ≤ node)%nat →
  continues m0 m → continues m0 (update node f m).
Proof.
  intros Hnode (new & Hmem & Hnodes & Hexec & Hcreate).
  exists (alter f (node - length (mem m0)) new).
  cbn [mem agg trace update]. rewrite Hmem, length_alter.
  by rewrite alter_app_r_alt.
Qed.

Lemma continues_emit m0 e m :
  passive e → continues m0 m → continues m0 (emit e m).
Proof.
  intros He (new & Hmem & Hnodes & Hexec & Hcreate).
  exists new. by destruct e.
Qed.

Lemma continues_handle fuel nd m :
  continues m (snd (handle ext fuel nd m)).
Proof.
  apply (keeps_handle (continues m) (λ node, (length (mem m) ≤ node)%nat)).
  - by intros s m1 (new & ? & ? & ? & ?); exists new.
  - intros d m1. apply continues_entered.
  - intros m1. apply continues_length.
  - intros f node m1. apply continues_update.
  - intros e m1. apply continues_emit.
  - by intros e m1 (new & ? & ? & ? & ?); exists new.
  - apply continues_refl.
Qed.

Lemma continues_start fuel m : continues m (snd (start ext fuel m)).
Proof.
  apply (keeps_start (continues m) (λ node, (length (mem m) ≤ node)%nat)).
  - by intros s m1 (new & ? & ? & ? & ?); exists new.
  - intros d m1. apply continues_entered.
  - intros m1. apply continues_length.
  - intros f node m1. apply continues_update.
  - intros e m1. apply continues_emit.
  - by intros e m1 (new & ? & ? & ? & ?); exists new.
  - apply continues_refl.
Qed.

(** X1. A walk, and a whole run of [start], never changes the record of a
    node that was there before: what it writes are the records it creates,
    which come after the earlier ones. *)
Theorem walk_keeps_earlier_records fuel nd m :
  (∃ new, mem (snd (handle ext fuel nd m)) = mem m ++ new)
  ∧ (∃ new, mem (snd (start ext fuel m)) = mem m ++ new)
  ∧ (∀ p n, mem m !! p = Some n →
            mem (snd (handle ext fuel nd m)) !! p = Some n
            ∧ mem (snd (start ext fuel m)) !! p = Some n).
Proof.
  destruct (continues_handle fuel nd m) as (new1 & H1 & _).
  destruct (continues_start fuel m) as (new2 & H2 & _).
  split_and!; [by exists new1 | by exists new2 |].
  intros p n Hp. rewrite H1, H2.
  split; by apply lookup_app_l_Some.
Qed.

(** X2. The node history is append-only and matches the outside calls: after
    a walk it is the earlier history followed by the addresses of the records
    the walk created, in the order of their creation, and the walk made one
    executor call and one [CreateWorkFlowNode] call for each of them. *)
Theorem walk_appends_history fuel nd m :
  let m' := snd (handle ext fuel nd m) in
  let k := length (mem m') - length (mem m) in
  Nodes (agg m') = Nodes (agg m) ++ seq (length (mem m)) k
  ∧ length (mem m') = length (mem m) + k
  ∧ executions (trace m') = executions (trace m) + k
  ∧ creations (trace m') = creations (trace m) + k.
Proof.
  intros m' k.
  destruct (continues_handle fuel nd m) as (new & Hmem & Hnodes & He & Hc).
  fold m' in Hmem, Hnodes, He, Hc.
  assert (Hk : k = length new).
  { subst k. rewrite Hmem, length_app. lia. }
  rewrite Hk, Hmem, length_app. by split_and!.
Qed.

(** *** The current node *)

Lemma current_is_last_handle fuel : keeps current_is_last (handle ext fuel).
Proof.
  apply (keeps_handle current_is_last (λ _, True)); try done.
  intros d m _. unfold current_is_last.
  cbn [agg CurrentNode Nodes entered_machine]. by rewrite last_snoc.
Qed.

(** X3. The current node is always the last node of the history: a walk and
    [start] keep it so; it is not reset when the walk ends. *)
Theorem current_node_is_last_of_history fuel nd m :
  current_is_last m →
  current_is_last (snd (handle ext fuel nd m))
  ∧ current_is_last (snd (start ext fuel m)).
Proof.
  intros Hm. split.
  - by apply current_is_last_handle.
  - apply (keeps_start current_is_last (λ _, True)); try done.
    intros d m1 _. unfold current_is_last.
    cbn [agg CurrentNode Nodes entered_machine]. by rewrite last_snoc.
Qed.

(** X4. [destroy] after a run: since the current node is still the last node
    of the history, destroying a workflow whose run is over fails that last
    node with the canceled error, whatever status the run gave it, and sets
    the workflow to Canceled whatever [start] had set. *)
Theorem destroy_after_run_fails_last_node fuel reason m p n :
  current_is_last m →
  let m1 := snd (start ext fuel m) in
  let m2 := destroy ext reason m1 in
  last (Nodes (agg m1)) = Some p →
  mem m1 !! p = Some n →
  Status (Flow (agg m2)) = constants.WorkFlowStatusCanceled
  ∧ mem m2 !! p = Some (fail ext (NewError TIEM_TASK_CANCELED reason) n)
  ∧ NodeStatus (deref m2 p) = constants.WorkFlowStatusError
  ∧ last (history m2) = Some (fail ext (NewError TIEM_TASK_CANCELED reason) n).
Proof.
  intros Hm m1 m2 Hlast Hn.
  assert (Hcur : CurrentNode (agg m1) = Some p).
  { rewrite <- Hlast.
    apply (keeps_start current_is_last (λ _, True)); try done.
    intros d m0 _. unfold current_is_last.
    cbn [agg CurrentNode Nodes entered_machine]. by rewrite last_snoc. }
  assert (Hmem : mem m2
            = alter (fail ext (NewError TIEM_TASK_CANCELED reason)) p (mem m1)).
  { subst m2. unfold destroy, UpdateWorkFlowDetail, emit.
    cbn [agg mem set_status on_agg CurrentNode set_Flow]. by rewrite Hcur. }
  assert (Hp : mem m2 !! p
               = Some (fail ext (NewError TIEM_TASK_CANCELED reason) n)).
  { by rewrite Hmem, list_lookup_alter_eq, Hn. }
  split_and!.
  - subst m2. unfold destroy, UpdateWorkFlowDetail, emit.
    cbn [agg mem set_status on_agg CurrentNode set_Flow].
    by destruct (CurrentNode _).
  - done.
  - unfold deref. by rewrite (list_lookup_total_correct _ _ _ Hp).
  - unfold history. rewrite fmap_last.
    assert (HN : Nodes (agg m2) = Nodes (agg m1)).
    { subst m2. unfold destroy, UpdateWorkFlowDetail, emit.
      cbn [agg mem set_status on_agg CurrentNode set_Flow Nodes].
      by destruct (CurrentNode _). }
    rewrite HN, Hlast. cbn. unfold deref.
    by rewrite (list_lookup_total_correct _ _ _ Hp).
Qed.

(** *** The order of the outside calls *)

Lemma audited_emit e (t : list Event) :
  passive e → audited t → audited (e :: t).
Proof. by destruct e. Qed.

(** X5. Every executor runs on a record the gateway has seen: if each
    executor call in the trace comes right after the [CreateWorkFlowNode] of
    its own node and an [UpdateWorkFlowDetail], this is still so after a walk
    and after [start]. *)
Theorem executors_run_after_their_record_is_persisted fuel nd m :
  audited (trace m) →
  audited (trace (snd (handle ext fuel nd m)))
  ∧ audited (trace (snd (start ext fuel m))).
Proof.
  intros Hm.
  assert (Hent : ∀ d m1, audited (trace m1) →
                         audited (trace (entered_machine ext d m1))).
  { intros d m1 H1. cbn [trace entered_machine audited]. by split_and!. }
  split.
  - apply (keeps_handle (λ m1, audited (trace m1)) (λ _, True)); try done.
    intros e m1 He H1. by apply audited_emit.
  - apply (keeps_start (λ m1, audited (trace m1)) (λ _, True)); try done.
    intros e m1 He H1. by apply audited_emit.
Qed.

(** *** The error of the flow *)

Lemma flow_error_kept fuel :
  keeps (λ m, is_Some (FlowError (agg m))) (handle ext fuel).
Proof.
  by apply (keeps_handle (λ m, is_Some (FlowError (agg m))) (λ _, True)).
Qed.

Lemma failed_sets_error handle' node d m :
  keeps (λ m, is_Some (FlowError (agg m))) handle' →
  is_Some (FlowError (agg (snd (failed ext handle' node d m)))).
Proof.
  intros Hkeep. unfold failed, handleTaskError.
  set (m1 := on_agg _ m).
  assert (H1 : is_Some (FlowError (agg m1))) by done.
  destruct (decide ("" ≠ FailEvent d)); [|done].
  unfold successor. set (m2 := emit _ m1).
  specialize (Hkeep (TaskNodes (Define (agg m1)) !! FailEvent d) m2 H1).
  by destruct (handle' _ m2) as [[b|] m3].
Qed.

Lemma polling_false_sets_error handle' fuel sequence node d m :
  keeps (λ m, is_Some (FlowError (agg m))) handle' →
  (∀ nd m1, fst (handle' nd m1) = Some false →
            is_Some (FlowError (agg (snd (handle' nd m1))))) →
  fst (polling ext handle' fuel sequence node d m) = Some false →
  is_Some (FlowError (agg (snd (polling ext handle' fuel sequence node d m)))).
Proof.
  intros Hkeep Hfalse. revert sequence m.
  induction fuel as [|fuel IH]; intros sequence m; [done|].
  cbn [polling].
  destruct (_ >? _)%Z; [intros _; by apply failed_sets_error|].
  destruct (GetStatus ext _ _) as [op|err];
    [|intros _; by apply failed_sets_error].
  destruct (deployment.OpStatus op).
  - apply IH.
  - unfold proceed, successor. apply Hfalse.
  - intros _. by apply failed_sets_error.
Qed.

Lemma handle_false_sets_error fuel nd m :
  fst (handle ext fuel nd m) = Some false →
  is_Some (FlowError (agg (snd (handle ext fuel nd m)))).
Proof.
  revert nd m. induction fuel as [|fuel IH]; intros nd m; [done|].
  destruct nd as [d|]; [|done].
  rewrite handle_node. cbv zeta.
  pose proof (flow_error_kept fuel) as Hkeep.
  destruct (exec_error _); [intros _; by apply failed_sets_error|].
  repeat case_decide.
  - unfold proceed, successor. apply IH.
  - unfold proceed, successor. apply IH.
  - by apply polling_false_sets_error.
  - done.
Qed.

(** X6. A walk that reports failure has recorded an error of the flow, and
    no walk ever clears a recorded error: [FlowError] is only ever set. *)
Theorem failure_records_flow_error fuel nd m :
  (fst (handle ext fuel nd m) = Some false →
   is_Some (FlowError (agg (snd (handle ext fuel nd m)))))
  ∧ (is_Some (FlowError (agg m)) →
     is_Some (FlowError (agg (snd (handle ext fuel nd m)))))
  ∧ (fst (start ext fuel m) = Some false →
     is_Some (FlowError (agg (snd (start ext fuel m))))).
Proof.
  split_and!.
  - apply handle_false_sets_error.
  - apply flow_error_kept.
  - rewrite start_eq.
    pose proof (handle_false_sets_error fuel
                  (TaskNodes (Define (agg m)) !! "start")
                  (set_status constants.WorkFlowStatusProcessing m)) as Hf.
    destruct (handle ext fuel _ _) as [[[]|] m']; [done | | done].
    intros _. by apply Hf.
Qed.

(** X7. When [start] returns, the status of the workflow is Finished if the
    top-level [handle] returned true and Error if it returned false, never
    anything else, and the last call of the run hands the gateway the flow
    with that status and the node history as it then is. *)
Theorem start_finalises_status fuel m result m' :
  start ext fuel m = (Some result, m') →
  Status (Flow (agg m'))
  = (if result then constants.WorkFlowStatusFinished
     else constants.WorkFlowStatusError)
  ∧ fst (handle ext fuel (TaskNodes (Define (agg m)) !! "start")
           (set_status constants.WorkFlowStatusProcessing m))
    = Some result
  ∧ ∃ earlier,
      trace m' = EvUpdateWorkFlowDetail (Flow (agg m')) (history m') :: earlier.
Proof.
  rewrite start_eq.
  destruct (handle ext fuel _ _) as [[b|] m1]; [|done].
  intros [= <- <-]. split_and!.
  - by destruct b.
  - done.
  - exists (trace (complete b m1)). by destruct b.
Qed.

(** *** More of the polling loop *)

(** A turn on which the call of the oracle fails. *)
Lemma polling_call_error handle' fuel sequence node d m err :
  (0 ≤ sequence < maxPollingSequence ext)%Z →
  (maxPollingSequence ext < 2 ^ 31)%Z →
  GetStatus ext (queries (trace m)) (OperationID (deref m node)) = inr err →
  polling ext handle' (S fuel) sequence node d m
  = failed ext handle' node d
      (update node
         (fail ext (NewError TIEM_TASK_FAILED (error_text ext err)))
         (emit (EvGetStatus (OperationID (deref m node))) (emit EvTick m))).
Proof.
  intros Hseq H31 Herr. cbn [polling]. rewrite int32_id by lia.
  destruct (Z.gtb_spec (sequence + 1) (maxPollingSequence ext)) as [?|_];
    [lia|].
  rewrite deref_emit. cbn [trace emit queries]. by rewrite Herr.
Qed.

(** A turn on which the oracle reports that the operation failed. *)
Lemma polling_operation_error handle' fuel sequence node d m op :
  (0 ≤ sequence < maxPollingSequence ext)%Z →
  (maxPollingSequence ext < 2 ^ 31)%Z →
  GetStatus ext (queries (trace m)) (OperationID (deref m node)) = inl op →
  deployment.OpStatus op = deployment.Error →
  polling ext handle' (S fuel) sequence node d m
  = failed ext handle' node d
      (update node
         (fail ext (NewError TIEM_TASK_FAILED (deployment.ErrorStr op)))
         (emit (EvGetStatus (OperationID (deref m node))) (emit EvTick m))).
Proof.
  intros Hseq H31 Hop Herr. cbn [polling]. rewrite int32_id by lia.
  destruct (Z.gtb_spec (sequence + 1) (maxPollingSequence ext)) as [?|_];
    [lia|].
  rewrite deref_emit. cbn [trace emit queries]. by rewrite Hop, Herr.
Qed.

(** [handle] of a polling node up to its (k+1)-th turn, the first [k] having
    found the operation running. *)
Lemma polling_node_reaches_turn fuel k d m :
  DefReturnType d = PollingNode →
  out_ret (ran ext d m) = Returned None →
  NodeStatus (out_node (ran ext d m)) ≠ constants.WorkFlowStatusFinished →
  (maxPollingSequence ext < 2 ^ 31)%Z →
  (Z.of_nat k ≤ maxPollingSequence ext)%Z →
  (∀ j, (j < k)%nat →
        running (GetStatus ext (queries (trace m) + j)
                   (OperationID (out_node (ran ext d m))))) →
  handle ext (S (k + fuel)) (Some d) m
  = polling ext (handle ext (k + fuel)) fuel (Z.of_nat k) (length (mem m)) d
      (waited k (OperationID (out_node (ran ext d m)))
         (entered_machine ext d m)).
Proof.
  intros Hpoll Hret Hstatus H31 Hk Hrun.
  assert (Hnode : deref (entered_machine ext d m) (length (mem m))
                  = out_node (ran ext d m)).
  { by rewrite deref_entered, Hret. }
  rewrite handle_node, Hret. cbn [exec_error]. cbv zeta.
  rewrite decide_False by (rewrite Hpoll; done).
  rewrite decide_True by done.
  rewrite decide_False by (by rewrite Hnode).
  rewrite polling_waits; [| lia | lia | lia |].
  - by rewrite Hnode, Z.add_0_l.
  - intros j Hj. rewrite Hnode. by apply Hrun.
Qed.

(** X8. A PollingNode whose executor has already finished the node is not
    polled: no tick is awaited and the oracle is not asked; the node record
    stays as the executor left it and [handle] goes on with the node that
    [successEvent] names. *)
Theorem polling_node_already_finished fuel d m :
  DefReturnType d = PollingNode →
  out_ret (ran ext d m) = Returned None →
  NodeStatus (out_node (ran ext d m)) = constants.WorkFlowStatusFinished →
  let node := length (mem m) in
  let next := TaskNodes (Define (agg m)) !! SuccessEvent d in
  let m1 := entered_machine ext d m in
  let m2 := emit (EvLookup (SuccessEvent d) (bool_decide (is_Some next))) m1 in
  handle ext (S fuel) (Some d) m = handle ext fuel next m2
  ∧ deref m2 node = out_node (ran ext d m)
  ∧ queries (trace m2) = queries (trace m)
  ∧ ticks (trace m2) = ticks (trace m).
Proof.
  intros Hpoll Hret Hstatus node next m1 m2.
  assert (Hnode : deref m1 node = out_node (ran ext d m)).
  { subst m1 node. by rewrite deref_entered, Hret. }
  split_and!; [| done | done | done].
  rewrite handle_node, Hret. cbn [exec_error]. cbv zeta.
  rewrite decide_False by (rewrite Hpoll; done).
  rewrite decide_True by done. fold m1 node.
  by rewrite decide_True by (by rewrite Hnode).
Qed.

(** X9. When the call of the oracle itself fails on the K-th query of a
    polling node (the earlier ones having found the operation running), the
    node is failed with a task-failed error carrying the text of that error,
    the oracle is not asked again, and [handle] takes the error path: it
    never returns true, and returns false at once when there is no fail
    event. *)
Theorem polling_node_query_fails (fuel K : nat) err d m :
  DefReturnType d = PollingNode →
  out_ret (ran ext d m) = Returned None →
  NodeStatus (out_node (ran ext d m)) ≠ constants.WorkFlowStatusFinished →
  (1 ≤ K)%nat →
  (Z.of_nat K ≤ maxPollingSequence ext)%Z →
  (maxPollingSequence ext < 2 ^ 31)%Z →
  let operationID := OperationID (out_node (ran ext d m)) in
  (∀ j, (S j < K)%nat →
        running (GetStatus ext (queries (trace m) + j) operationID)) →
  GetStatus ext (queries (trace m) + (K - 1)) operationID = inr err →
  let node := length (mem m) in
  let failure := NewError TIEM_TASK_FAILED (error_text ext err) in
  let m2 :=
    update node (fail ext failure)
      (waited K operationID (entered_machine ext d m)) in
  let r := handle ext (S (K + fuel)) (Some d) m in
  deref m2 node = fail ext failure (out_node (ran ext d m))
  ∧ queries (trace m2) = queries (trace m) + K
  ∧ r = failed ext (handle ext (K + fuel)) node d m2
  ∧ fst r ≠ Some true
  ∧ (FailEvent d = "" →
     fst r = Some false ∧ queries (trace (snd r)) = queries (trace m) + K).
Proof.
  intros Hpoll Hret Hstatus HK Hmax H31 operationID Hrun Herr
    node failure m2 r.
  destruct K as [|k]; [lia|]. clear HK.
  replace (S k - 1) with k in Herr by lia.
  assert (Hnode : deref (entered_machine ext d m) (length (mem m))
                  = out_node (ran ext d m)).
  { by rewrite deref_entered, Hret. }
  assert (Hnode2 : deref m2 node = fail ext failure (out_node (ran ext d m))).
  { subst m2 node. unfold deref, update, waited, entered_machine.
    cbn [mem]. rewrite alter_fresh, lookup_total_fresh. by rewrite Hret. }
  assert (Hq : queries (trace m2) = queries (trace m) + S k).
  { subst m2. cbn [trace update]. by rewrite queries_waited. }
  assert (Hr : r = failed ext (handle ext (S k + fuel)) node d m2).
  { subst r node. replace (S k + fuel) with (k + S fuel) by lia.
    rewrite polling_node_reaches_turn; [| done | done | done | lia | lia |].
    - rewrite (polling_call_error _ _ _ _ _ _ err); [| lia | lia |].
      + by rewrite deref_waited, Hnode.
      + by rewrite deref_waited, Hnode, queries_waited.
    - intros j Hj. apply Hrun. lia. }
  split_and!; [done | done | done | |].
  - rewrite Hr. apply failed_not_true.
  - intros Hempty.
    assert (Hr' : r = (Some false,
                       on_agg (set_FlowError
                                 (Some (Errorf (fmt_Sprintf ext
                                                  (error_text ext failure)))))
                         m2)).
    { rewrite Hr. unfold failed, handleTaskError.
      rewrite Hnode2, result_fail, Hempty.
      by rewrite decide_False by (intros Hne; by apply Hne). }
    rewrite Hr'. by split.
Qed.

(** X10. When the oracle reports on the K-th query of a polling node that
    the operation ended in error, the node is failed with a task-failed error
    carrying the error string of the reply, the oracle is not asked again,
    and [handle] takes the error path. *)
Theorem polling_node_operation_fails (fuel K : nat) op d m :
  DefReturnType d = PollingNode →
  out_ret (ran ext d m) = Returned None →
  NodeStatus (out_node (ran ext d m)) ≠ constants.WorkFlowStatusFinished →
  (1 ≤ K)%nat →
  (Z.of_nat K ≤ maxPollingSequence ext)%Z →
  (maxPollingSequence ext < 2 ^ 31)%Z →
  let operationID := OperationID (out_node (ran ext d m)) in
  (∀ j, (S j < K)%nat →
        running (GetStatus ext (queries (trace m) + j) operationID)) →
  GetStatus ext (queries (trace m) + (K - 1)) operationID = inl op →
  deployment.OpStatus op = deployment.Error →
  let node := length (mem m) in
  let failure := NewError TIEM_TASK_FAILED (deployment.ErrorStr op) in
  let m2 :=
    update node (fail ext failure)
      (waited K operationID (entered_machine ext d m)) in
  let r := handle ext (S (K + fuel)) (Some d) m in
  deref m2 node = fail ext failure (out_node (ran ext d m))
  ∧ queries (trace m2) = queries (trace m) + K
  ∧ r = failed ext (handle ext (K + fuel)) node d m2
  ∧ fst r ≠ Some true
  ∧ (FailEvent d = "" →
     fst r = Some false ∧ queries (trace (snd r)) = queries (trace m) + K).
Proof.
  intros Hpoll Hret Hstatus HK Hmax H31 operationID Hrun Hop Herr
    node failure m2 r.
  destruct K as [|k]; [lia|]. clear HK.
  replace (S k - 1) with k in Hop by lia.
  assert (Hnode : deref (entered_machine ext d m) (length (mem m))
                  = out_node (ran ext d m)).
  { by rewrite deref_entered, Hret. }
  assert (Hnode2 : deref m2 node = fail ext failure (out_node (ran ext d m))).
  { subst m2 node. unfold deref, update, waited, entered_machine.
    cbn [mem]. rewrite alter_fresh, lookup_total_fresh. by rewrite Hret. }
  assert (Hq : queries (trace m2) = queries (trace m) + S k).
  { subst m2. cbn [trace update]. by rewrite queries_waited. }
  assert (Hr : r = failed ext (handle ext (S k + fuel)) node d m2).
  { subst r node. replace (S k + fuel) with (k + S fuel) by lia.
    rewrite polling_node_reaches_turn; [| done | done | done | lia | lia |].
    - rewrite (polling_operation_error _ _ _ _ _ _ op); [| lia | lia | | done].
      + by rewrite deref_waited, Hnode.
      + by rewrite deref_waited, Hnode, queries_waited.
    - intros j Hj. apply Hrun. lia. }
  split_and!; [done | done | done | |].
  - rewrite Hr. apply failed_not_true.
  - intros Hempty.
    assert (Hr' : r = (Some false,
                       on_agg (set_FlowError
                                 (Some (Errorf (fmt_Sprintf ext
                                                  (error_text ext failure)))))
                         m2)).
    { rewrite Hr. unfold failed, handleTaskError.
      rewrite Hnode2, result_fail, Hempty.
      by rewrite decide_False by (intros Hne; by apply Hne). }
    rewrite Hr'. by split.
Qed.

(** The loop is left within the turns that remain, whatever the oracle
    says. *)
Lemma polling_leaves handle' node d n :
  (maxPollingSequence ext < 2 ^ 31 - 1)%Z →
  ∀ fuel sequence m,
    (0 ≤ sequence)%Z →
    (sequence + Z.of_nat n = maxPollingSequence ext)%Z →
    ∃ k m',
      (k ≤ n)%nat
      ∧ queries (trace m') = queries (trace m) + k
      ∧ (ticks (trace m') ≤ ticks (trace m) + n + 1)%nat
      ∧ (polling ext handle' (S n + fuel) sequence node d m
         = failed ext handle' node d m'
         ∨ polling ext handle' (S n + fuel) sequence node d m
           = proceed handle' d m').
Proof.
  intros H31. induction n as [|n IH]; intros fuel sequence m Hseq Hsum.
  - exists 0, (update node
                 (fail ext (OfCode TIEM_WORKFLOW_NODE_POLLING_TIME_OUT))
                 (emit EvTick m)).
    split_and!; [lia | cbn; lia | cbn; lia |].
    left. rewrite Z.add_0_r in Hsum. subst sequence.
    by apply polling_times_out.
  - set (m1 := emit (EvGetStatus (OperationID (deref m node)))
                 (emit EvTick m)).
    destruct (GetStatus ext (queries (trace m)) (OperationID (deref m node)))
      as [op|err] eqn:Hreply.
    + destruct (deployment.OpStatus op) eqn:Hop.
      * destruct (IH fuel (sequence + 1)%Z m1 ltac:(lia) ltac:(lia))
          as (k & m' & Hk & Hq & Ht & Hleft).
        exists (S k), m'.
        assert (Hstep :
          polling ext handle' (S (S n) + fuel) sequence node d m
          = polling ext handle' (S n + fuel) (sequence + 1) node d m1).
        { cbn [Nat.add polling]. rewrite int32_id by lia.
          destruct (Z.gtb_spec (sequence + 1) (maxPollingSequence ext))
            as [?|_]; [lia|].
          rewrite deref_emit. cbn [trace emit queries].
          by rewrite Hreply, Hop. }
        rewrite Hstep.
        split_and!; [lia | | | done].
        -- rewrite Hq. cbn. lia.
        -- cbn in Ht. lia.
      * exists 1, (update node
                     (success ext
                        (if decide (deployment.Result op ≠ "")
                         then Some (deployment.Result op) else None))
                     m1).
        split_and!; [lia | cbn; lia | cbn; lia |].
        right. cbn [Nat.add].
        by apply polling_finishes; [lia | lia | rewrite Hreply].
      * exists 1, (update node
                     (fail ext
                        (NewError TIEM_TASK_FAILED (deployment.ErrorStr op)))
                     m1).
        split_and!; [lia | cbn; lia | cbn; lia |].
        left. cbn [Nat.add].
        by apply polling_operation_error; [lia | lia | |].
    + exists 1, (update node
                   (fail ext
                      (NewError TIEM_TASK_FAILED (error_text ext err)))
                   m1).
      split_and!; [lia | cbn; lia | cbn; lia |].
      left. cbn [Nat.add].
      by apply polling_call_error; [lia | lia |].
Qed.

(** X11. The wait of a polling node is bounded whatever the oracle answers:
    with [maxPollingSequence] between 0 and the largest 32-bit integer less
    one, [handle] leaves the polling loop after at most [maxPollingSequence]
    queries and [maxPollingSequence]+1 ticks, either by the error path or by
    the success event. *)
Theorem polling_node_wait_is_bounded fuel d m :
  DefReturnType d = PollingNode →
  out_ret (ran ext d m) = Returned None →
  NodeStatus (out_node (ran ext d m)) ≠ constants.WorkFlowStatusFinished →
  (0 ≤ maxPollingSequence ext < 2 ^ 31 - 1)%Z →
  let max := Z.to_nat (maxPollingSequence ext) in
  let node := length (mem m) in
  let r := handle ext (S (S max + fuel)) (Some d) m in
  ∃ k m',
    (k ≤ max)%nat
    ∧ queries (trace m') = queries (trace m) + k
    ∧ (ticks (trace m') ≤ ticks (trace m) + max + 1)%nat
    ∧ (r = failed ext (handle ext (S max + fuel)) node d m'
       ∨ r = proceed (handle ext (S max + fuel)) d m').
Proof.
  intros Hpoll Hret Hstatus Hmax max node r.
  assert (Hnode : deref (entered_machine ext d m) (length (mem m))
                  = out_node (ran ext d m)).
  { by rewrite deref_entered, Hret. }
  destruct (polling_leaves (handle ext (S max + fuel)) node d max
              ltac:(lia) fuel 0%Z (entered_machine ext d m)
              ltac:(lia) ltac:(lia))
    as (k & m' & Hk & Hq & Ht & Hleft).
  exists k, m'. split_and!; [done | done | done |].
  assert (Hr : r = polling ext (handle ext (S max + fuel)) (S max + fuel) 0
                     node d (entered_machine ext d m)).
  { subst r node. rewrite handle_node, Hret. cbn [exec_error]. cbv zeta.
    rewrite decide_False by (rewrite Hpoll; done).
    rewrite decide_True by done.
    by rewrite decide_False by (by rewrite Hnode). }
  by rewrite Hr.
Qed.

Lemma int32_le_max (z : Z) : (int32 z ≤ 2 ^ 31 - 1)%Z.
Proof.
  unfold int32.
  pose proof (Z.mod_pos_bound (z + 2 ^ 31) (2 ^ 32) ltac:(lia)). lia.
Qed.

(** X12. The bound is needed: were [maxPollingSequence] the largest 32-bit
    integer, the counter would wrap before exceeding it and the time-out
    would never fire; with an oracle that always says running the loop is
    not left, however long it runs. *)
Theorem polling_never_times_out_at_max_int32 handle' fuel sequence node d m :
  maxPollingSequence ext = (2 ^ 31 - 1)%Z →
  (∀ i operationID, running (GetStatus ext i operationID)) →
  fst (polling ext handle' fuel sequence node d m) = None
  ∧ ticks (trace (snd (polling ext handle' fuel sequence node d m)))
    = ticks (trace m) + fuel.
Proof.
  intros Hmax Hrun. revert sequence m.
  induction fuel as [|fuel IH]; intros sequence m.
  - cbn. split; [done | lia].
  - cbn [polling].
    pose proof (int32_le_max (sequence + 1)) as Hle.
    destruct (Z.gtb_spec (int32 (sequence + 1)) (maxPollingSequence ext))
      as [?|_]; [lia|].
    pose proof (Hrun (queries (trace (emit EvTick m)))
                  (OperationID (deref (emit EvTick m) node))) as Hreply.
    destruct (GetStatus ext _ _) as [op|err]; [|done].
    cbn in Hreply. rewrite Hreply.
    destruct (IH (int32 (sequence + 1))
                (emit (EvGetStatus (OperationID (deref (emit EvTick m) node)))
                   (emit EvTick m))) as [IH1 IH2].
    split; [done|]. rewrite IH2. cbn. lia.
Qed.

(** *** The flow context *)

(** The flow data is a map: a fresh context has nothing under any key,
    a value set under a key is the one got under it, the other keys are
    untouched, and setting a key twice keeps the second value only. *)
Theorem flow_context_set_then_get (c : gmap string Value) key value :
  (∀ k, GetData (NewFlowContext (Value := Value)) k = None)
  ∧ GetData (SetData key value c) key = Some value
  ∧ (∀ k, k ≠ key → GetData (SetData key value c) k = GetData c k)
  ∧ (∀ value', SetData key value' (SetData key value c)
               = SetData key value' c).
Proof.
  unfold GetData, SetData, NewFlowContext. split_and!.
  - intros k. apply lookup_empty.
  - apply lookup_insert_eq.
  - intros k Hk. by apply lookup_insert_ne.
  - intros value'. apply insert_insert_eq.
Qed.

(** X13. [addContext] sets the value in the flow data in every case; the
    context string of the flow becomes the serialisation of the new data,
    and keeps its old value when the serialisation fails.  Nothing else of
    the machine changes, and the gateway is not called. *)
Theorem addContext_updates_data_and_snapshot key value m :
  let m' := addContext ext key value m in
  FlowData (agg m') = SetData key value (FlowData (agg m))
  ∧ GetData (FlowData (agg m')) key = Some value
  ∧ Context (Flow (agg m'))
    = default (Context (Flow (agg m)))
        (json_Marshal ext (SetData key value (FlowData (agg m))))
  ∧ Status (Flow (agg m')) = Status (Flow (agg m))
  ∧ Nodes (agg m') = Nodes (agg m)
  ∧ CurrentNode (agg m') = CurrentNode (agg m)
  ∧ mem m' = mem m
  ∧ trace m' = trace m.
Proof.
  unfold addContext, SetData, GetData, on_agg.
  cbn [agg FlowData set_FlowData].
  destruct (json_Marshal ext _) as [data|]; cbn;
    by rewrite lookup_insert_eq.
Qed.

(** *** Creation *)

(** X14. [createFlowWork] returns either an aggregation or an error, never
    both and never neither: the aggregation exactly when the definition is
    not nil and the gateway created the record, in which case it is the
    instance of the definition with the record as the gateway left it; a nil
    definition gives the flow-not-found error whatever the gateway would do,
    and an error of the gateway is returned as it is. *)
Theorem createFlowWork_outcome getInstance CreateWorkFlow bizId bizType
    (define : option (WorkFlowDefine Value)) :
  let r := createFlowWork getInstance CreateWorkFlow bizId bizType define in
  (is_Some (fst r) ↔ snd r = None)
  ∧ (is_Some (fst r) ↔
     ∃ def, define = Some def
            ∧ snd (CreateWorkFlow
                     (Flow (getInstance def bizId bizType ∅))) = None)
  ∧ (define = None →
     r = (None,
          Some (NewError TIEM_FLOW_NOT_FOUND "empty workflow definition")))
  ∧ (∀ def err,
       define = Some def →
       snd (CreateWorkFlow (Flow (getInstance def bizId bizType ∅)))
       = Some err →
       r = (None, Some err))
  ∧ (∀ flow,
       fst r = Some flow →
       ∃ def,
         define = Some def
         ∧ flow
           = set_Flow
               (fst (CreateWorkFlow
                       (Flow (getInstance def bizId bizType ∅))))
               (getInstance def bizId bizType ∅)).
Proof.
  unfold createFlowWork. destruct define as [def|]; cbn zeta.
  - destruct (CreateWorkFlow (Flow (getInstance def bizId bizType ∅)))
      as [record [err|]] eqn:Hcreate; cbn [fst snd].
    + split_and!.
      * split; [by intros [? ?] | done].
      * split; [by intros [? ?] |].
        intros (def' & [= <-] & Hnone). by rewrite Hcreate in Hnone.
      * done.
      * intros def' err' [= <-] Herr. rewrite Hcreate in Herr.
        by injection Herr as ->.
      * done.
    + split_and!.
      * by split.
      * split; [|by eexists]. intros _. exists def. by rewrite Hcreate.
      * done.
      * intros def' err' [= <-] Herr. by rewrite Hcreate in Herr.
      * intros flow [= <-]. exists def. by rewrite Hcreate.
  - cbn [fst snd]. split_and!.
    + split; [by intros [? ?] | done].
    + split; [by intros [? ?] | by intros (? & ? & ?)].
    + done.
    + done.
    + done.
Qed.

Lemma length_zero_empty (s : string) : String.length s = 0 ↔ s = "".
Proof. by destruct s. Qed.

(** X15. The hook [BeforeCreate] never fails and never replaces an ID: an
    entity that has one is left as it is, an entity without one gets the
    generated ID, tenant and status are kept, and once the entity has a
    non-empty ID a second pass of the hook changes nothing. *)
Theorem BeforeCreate_keeps_existing_id GenerateID (e : dbModel.Entity) :
  let e' := fst (dbModel.BeforeCreate GenerateID e) in
  snd (dbModel.BeforeCreate GenerateID e) = None
  ∧ dbModel.TenantId e' = dbModel.TenantId e
  ∧ dbModel.Status e' = dbModel.Status e
  ∧ (dbModel.ID e ≠ "" → e' = e)
  ∧ (dbModel.ID e = "" → dbModel.ID e' = GenerateID)
  ∧ (GenerateID ≠ "" →
     dbModel.ID e' ≠ ""
     ∧ ∀ other, fst (dbModel.BeforeCreate other e') = e').
Proof.
  unfold dbModel.BeforeCreate. cbn [fst snd].
  destruct (decide (String.length (dbModel.ID e) = 0)) as [Hlen|Hlen].
  - apply length_zero_empty in Hlen.
    split_and!; try done.
    intros Hgen. cbn [dbModel.ID]. split; [done|]. intros other.
    rewrite decide_False; [done|]. by rewrite length_zero_empty.
  - rewrite length_zero_empty in Hlen.
    split_and!; try done.
    intros _. split; [done|]. intros other.
    rewrite decide_False; [done|]. by rewrite length_zero_empty.
Qed.

(** *** Walks that end, walks that do not *)

(** X16. Nothing detects a cycle: a SyncFuncNode that names itself as its
    success event and whose executor never fails is walked again and again;
    [handle] does not return, and runs the executor once more for every
    further step it is given. *)
Theorem self_successor_never_returns d fuel m :
  TaskNodes (Define (agg m)) !! SuccessEvent d = Some d →
  DefReturnType d = SyncFuncNode →
  (∀ n data, out_ret (Executor d n data) = Returned None) →
  fst (handle ext fuel (Some d) m) = None
  ∧ executions (trace (snd (handle ext fuel (Some d) m)))
    = executions (trace m) + fuel.
Proof.
  intros Hself Hsync Hok. revert m Hself.
  induction fuel as [|fuel IH]; intros m Hself.
  - cbn. split; [done | lia].
  - rewrite handle_node. cbv zeta.
    assert (Hret : out_ret (ran ext d m) = Returned None) by apply Hok.
    rewrite Hret. cbn [exec_error]. rewrite decide_True by done.
    unfold proceed, successor.
    cbn [agg update entered_machine Define].
    rewrite Hself.
    set (m3 := emit _ _).
    destruct (IH m3 Hself) as [IH1 IH2].
    split; [done|]. rewrite IH2. subst m3. cbn. lia.
Qed.

Lemma polling_true_is_finished define handle' fuel sequence node d m :
  (∀ nd m1, Define (agg m1) = define →
            (∀ d1, nd = Some d1 →
                   DefReturnType d1 = SyncFuncNode
                   ∨ DefReturnType d1 = PollingNode) →
            fst (handle' nd m1) = Some true →
            Status (Flow (agg (snd (handle' nd m1))))
            = constants.WorkFlowStatusFinished) →
  known_types (TaskNodes define) →
  Define (agg m) = define →
  fst (polling ext handle' fuel sequence node d m) = Some true →
  Status (Flow (agg (snd (polling ext handle' fuel sequence node d m))))
  = constants.WorkFlowStatusFinished.
Proof.
  intros Htrue Hknown. revert sequence m.
  induction fuel as [|fuel IH]; intros sequence m Hdef; [done|].
  cbn [polling].
  destruct (_ >? _)%Z; [intros H; by apply failed_not_true in H|].
  destruct (GetStatus ext _ _) as [op|err];
    [|intros H; by apply failed_not_true in H].
  destruct (deployment.OpStatus op).
  - by apply IH.
  - unfold proceed, successor. apply Htrue.
    + by destruct (decide _).
    + intros d1 Hd1. apply (Hknown (SuccessEvent d) d1).
      rewrite <- Hd1, <- Hdef. by destruct (decide _).
  - intros H. by apply failed_not_true in H.
Qed.

Lemma handle_true_is_finished define fuel nd m :
  known_types (TaskNodes define) →
  Define (agg m) = define →
  (∀ d, nd = Some d →
        DefReturnType d = SyncFuncNode ∨ DefReturnType d = PollingNode) →
  fst (handle ext fuel nd m) = Some true →
  Status (Flow (agg (snd (handle ext fuel nd m))))
  = constants.WorkFlowStatusFinished.
Proof.
  intros Hknown. revert nd m.
  induction fuel as [|fuel IH]; intros nd m Hdef Hnd; [done|].
  destruct nd as [d|]; [|done].
  rewrite handle_node. cbv zeta.
  destruct (exec_error _); [intros H; by apply failed_not_true in H|].
  repeat case_decide.
  - unfold proceed, successor. apply IH; [done|].
    intros d1 Hd1. apply (Hknown (SuccessEvent d) d1).
    by rewrite <- Hd1, <- Hdef.
  - unfold proceed, successor. apply IH; [done|].
    intros d1 Hd1. apply (Hknown (SuccessEvent d) d1).
    by rewrite <- Hd1, <- Hdef.
  - by apply polling_true_is_finished with (define := define).
  - destruct (Hnd d eq_refl); done.
Qed.

(** X17. In a definition whose nodes are all SyncFuncNodes or PollingNodes a
    walk reports success only by running off the end of the success path:
    when [handle] returns true it has itself set the workflow Finished. *)
Theorem success_means_finished fuel name m :
  known_types (TaskNodes (Define (agg m))) →
  fst (handle ext fuel (TaskNodes (Define (agg m)) !! name) m) = Some true →
  Status
    (Flow (agg (snd (handle ext fuel (TaskNodes (Define (agg m)) !! name) m))))
  = constants.WorkFlowStatusFinished.
Proof.
  intros Hknown.
  apply handle_true_is_finished with (define := Define (agg m));
    [done | done |].
  intros d Hd. by apply (Hknown name d).
Qed.

(** *** The trace only grows *)

Lemma extends_trace_refl (m : Machine Value) : extends_trace (trace m) m.
Proof. by exists []. Qed.

Lemma extends_trace_entered t0 d (m : Machine Value) :
  extends_trace t0 m → extends_trace t0 (entered_machine ext d m).
Proof.
  intros [later Ht]. unfold extends_trace.
  destruct (trace_entered d m) as (flow & nodes & ->).
  rewrite Ht. by eexists (_ :: _ :: _ :: later).
Qed.

Lemma extends_trace_emit t0 e (m : Machine Value) :
  extends_trace t0 m → extends_trace t0 (emit e m).
Proof.
  intros [later Ht]. unfold extends_trace. cbn [trace emit].
  rewrite Ht. by exists (e :: later).
Qed.

(** Whatever a walk does, and however it ends, the events recorded before it
    stay in the trace. *)
Lemma extends_trace_handle fuel nd m :
  extends_trace (trace m) (snd (handle ext fuel nd m)).
Proof.
  apply (keeps_handle (extends_trace (trace m)) (λ _, True)); try done.
  - intros d m1. apply extends_trace_entered.
  - intros e m1 _. apply extends_trace_emit.
  - apply extends_trace_refl.
Qed.

(** A walk that is given a node and fuel runs the executor of that node:
    the events of entering the node stay in the trace. *)
Lemma extends_trace_handle_entered fuel d m :
  extends_trace (trace (entered_machine ext d m))
    (snd (handle ext (S fuel) (Some d) m)).
Proof.
  apply (keeps_handle_entered
           (extends_trace (trace (entered_machine ext d m))) (λ _, True));
    try done.
  - intros d1 m1. apply extends_trace_entered.
  - intros e m1 _. apply extends_trace_emit.
  - apply extends_trace_refl.
Qed.

(** *** Polling that finishes *)

(** C4. A PollingNode whose executor returns no error and leaves the node
    unfinished, with an oracle that says running on the first K-1 queries
    and finished on the K-th, K at most [maxPollingSequence].  [handle]
    ticks and queries K times, marks the record of the node a success, with
    the result of the oracle attached when it is not empty and with no
    payload when it is, looks up [successEvent] and returns what [handle] of
    the node it names returns.  In the machine [handle] returns, however the
    walk goes on, the record of the node is that success record and the K
    ticks and queries and the look-up are in the trace; when [successEvent]
    names no node, [handle] returns true with the workflow Finished; when it
    names a node, the executor of that node has run after the look-up. *)
Theorem polling_node_finishes (fuel K : nat) (r : string) d m :
  DefReturnType d = PollingNode →
  out_ret (ran ext d m) = Returned None →
  NodeStatus (out_node (ran ext d m)) ≠ constants.WorkFlowStatusFinished →
  (1 ≤ K)%nat →
  (Z.of_nat K ≤ maxPollingSequence ext)%Z →
  (maxPollingSequence ext < 2 ^ 31)%Z →
  let operationID := OperationID (out_node (ran ext d m)) in
  (∀ j, (S j < K)%nat → running (GetStatus ext (queries (trace m) + j) operationID)) →
  finished r (GetStatus ext (queries (trace m) + (K - 1)) operationID) →
  let node := length (mem m) in
  let next := TaskNodes (Define (agg m)) !! SuccessEvent d in
  let payload := if decide (r ≠ "") then Some r else None in
  let m2 :=
    update node (success ext payload)
      (waited K operationID (entered_machine ext d m)) in
  let m3 := emit (EvLookup (SuccessEvent d) (bool_decide (is_Some next))) m2 in
  let result := handle ext (S (K + fuel)) (Some d) m in
  deref m2 node = success ext payload (out_node (ran ext d m))
  ∧ NodeStatus (deref m2 node) = constants.WorkFlowStatusFinished
  ∧ (r ≠ "" →
     workflow.Result (deref m2 node)
     = attach_result ext (workflow.Result (out_node (ran ext d m))) r)
  ∧ (r = "" →
     workflow.Result (deref m2 node)
     = workflow.Result (out_node (ran ext d m)))
  ∧ queries (trace m2) = queries (trace m) + K
  ∧ ticks (trace m2) = ticks (trace m) + K
  ∧ result = handle ext (K + fuel) next m3
  ∧ mem (snd result) !! node
    = Some (success ext payload (out_node (ran ext d m)))
  ∧ NodeStatus (deref (snd result) node) = constants.WorkFlowStatusFinished
  ∧ extends_trace (trace m3) (snd result)
  ∧ (next = None →
     result
     = (Some true, set_status constants.WorkFlowStatusFinished m3))
  ∧ (∀ d', next = Some d' →
           fst result = fst (handle ext (K + fuel) (Some d') m3)
           ∧ extends_trace (trace (entered_machine ext d' m3)) (snd result)).
Proof.
  intros Hpoll Hret Hstatus HK Hmax H31 operationID Hrun Hfin
    node next payload m2 m3 result.
  destruct K as [|k]; [lia|]. clear HK.
  replace (S k - 1) with k in Hfin by lia.
  set (m1 := entered_machine ext d m) in *.
  assert (Hnode : deref m1 node = out_node (ran ext d m)).
  { subst m1 node. by rewrite deref_entered, Hret. }
  assert (Hmem2 : mem m2
            = mem m ++ [success ext payload (out_node (ran ext d m))]).
  { subst m2 m1 node. unfold update, waited, entered_machine.
    cbn [mem]. rewrite alter_fresh. by rewrite Hret. }
  assert (Hnode2 : deref m2 node = success ext payload (out_node (ran ext d m))).
  { unfold deref. rewrite Hmem2. subst node. apply lookup_total_fresh. }
  assert (Hq1 : queries (trace m1) = queries (trace m)) by done.
  assert (Ht1 : ticks (trace m1) = ticks (trace m)) by done.
  assert (Hstep : result = handle ext (S k + fuel) next m3).
  { assert (Hloop : ∀ handle',
      polling ext handle' (S k + fuel) 0 node d m1 = proceed handle' d m2).
    { intros handle'. replace (S k + fuel) with (k + S fuel) by lia.
      rewrite polling_waits; [| lia | lia | lia |].
      - rewrite Hnode. fold operationID.
        rewrite (polling_finishes _ _ _ _ _ _ r); [| lia | lia |].
        + rewrite deref_waited, Hnode. fold operationID.
          reflexivity.
        + rewrite deref_waited, Hnode, queries_waited, Hq1. exact Hfin.
      - intros j Hj. rewrite Hnode, Hq1. apply Hrun. lia. }
    subst result. rewrite handle_node, Hret. cbn [exec_error].
    rewrite decide_False by (rewrite Hpoll; done).
    rewrite decide_True by done.
    fold m1 node. rewrite decide_False by (by rewrite Hnode).
    by rewrite Hloop. }
  assert (Hkept : mem (snd result) !! node
            = Some (success ext payload (out_node (ran ext d m)))).
  { rewrite Hstep.
    destruct (continues_handle (S k + fuel) next m3) as (new & -> & _).
    change (mem m3) with (mem m2). rewrite Hmem2, <- app_assoc.
    subst node. apply list_lookup_middle. done. }
  split_and!.
  - done.
  - by rewrite Hnode2.
  - intros Hr. rewrite Hnode2. subst payload. by rewrite decide_True.
  - intros Hr. rewrite Hnode2. subst payload. by rewrite decide_False by (intros Hne; by apply Hne).
  - subst m2. cbn [trace update]. by rewrite queries_waited, Hq1.
  - subst m2. cbn [trace update]. by rewrite ticks_waited, Ht1.
  - exact Hstep.
  - exact Hkept.
  - unfold deref. by rewrite (list_lookup_total_correct _ _ _ Hkept).
  - rewrite Hstep. apply extends_trace_handle.
  - intros Hnone. rewrite Hstep, Hnone. apply handle_nil.
  - intros d' Hd'. rewrite Hstep, Hd'. split; [done|].
    apply extends_trace_handle_entered.
Qed.

(** *** A failing start node with a clean-up node *)

(** C2, amended. The start node's executor returns an error and its fail
    event names a node whose executor returns no error and whose success
    event is empty.  Then the top-level [handle], whenever it returns,
    returns false, and [start] leaves the status Error.  When the clean-up
    node is a SyncFuncNode, its record is Finished, and that of the start
    node Error, in every machine [start] returns; and when moreover the
    empty name is no key of the task nodes, [start] does return, with any
    fuel from 3 on: the walk marks the clean-up node Finished and even sets
    the workflow Finished on reaching the end of the fail path, and
    [complete] then sets the workflow to Error. *)
Theorem start_fail_path_ends_in_error sd cd e m :
  let m0 := set_status constants.WorkFlowStatusProcessing m in
  let m2 :=
    on_agg (set_FlowError (Some (Errorf (fmt_Sprintf ext (error_text ext e)))))
      (entered_machine ext sd m0) in
  let m3 := emit (EvLookup (FailEvent sd) true) m2 in
  TaskNodes (Define (agg m)) !! "start" = Some sd →
  out_ret (ran ext sd m0) = Returned (Some e) →
  FailEvent sd ≠ "" →
  TaskNodes (Define (agg m)) !! FailEvent sd = Some cd →
  out_ret (ran ext cd m3) = Returned None →
  SuccessEvent cd = "" →
  (∀ fuel b m',
     start ext fuel m = (Some b, m') →
     b = false ∧ Status (Flow (agg m')) = constants.WorkFlowStatusError)
  ∧ (DefReturnType cd = SyncFuncNode →
     (∀ fuel b m',
        start ext fuel m = (Some b, m') →
        mem m' !! length (mem m)
        = Some (fail ext e (out_node (ran ext sd m0)))
        ∧ mem m' !! S (length (mem m))
          = Some (success ext None (out_node (ran ext cd m3)))
        ∧ NodeStatus (deref m' (length (mem m)))
          = constants.WorkFlowStatusError
        ∧ NodeStatus (deref m' (S (length (mem m))))
          = constants.WorkFlowStatusFinished)
     ∧ (TaskNodes (Define (agg m)) !! "" = None →
        ∀ fuel,
          let walk := handle ext (3 + fuel) (Some sd) m0 in
          let r := start ext (3 + fuel) m in
          fst walk = Some false
          ∧ Status (Flow (agg (snd walk))) = constants.WorkFlowStatusFinished
          ∧ r = (Some false,
                 UpdateWorkFlowDetail
                   (set_status constants.WorkFlowStatusError (snd walk)))
          ∧ Status (Flow (agg (snd r))) = constants.WorkFlowStatusError
          ∧ NodeStatus (deref (snd r) (length (mem m)))
            = constants.WorkFlowStatusError
          ∧ NodeStatus (deref (snd r) (S (length (mem m))))
            = constants.WorkFlowStatusFinished
          ∧ executions (trace (snd r)) = 2 + executions (trace m))).
Proof.
  intros m0 m2 m3 Hstart Herr Hfail Hclean Hok Hend. split.
  { intros fuel b m'. apply start_error with (sd := sd); [done|].
    fold m0. by rewrite Herr. }
  intros Hsync.
  set (m4 := update (length (mem m3)) (success ext None)
               (entered_machine ext cd m3)).
  assert (Hlen : length (mem m3) = S (length (mem m))).
  { subst m3 m2 m0. cbn [mem emit on_agg entered_machine set_status].
    rewrite length_app. simpl. lia. }
  assert (Hmem : mem m4
            = mem m ++ [fail ext e (out_node (ran ext sd m0))]
                    ++ [success ext None (out_node (ran ext cd m3))]).
  { subst m4. cbn [mem set_status on_agg emit update entered_machine].
    rewrite alter_fresh, Hok. cbn [settle].
    subst m3 m2. cbn [mem emit on_agg entered_machine].
    rewrite Herr. cbn [settle]. by rewrite <- app_assoc. }
  assert (Hdef : Define (agg m4) = Define (agg m)) by done.
  assert (Hwalk : ∀ fuel,
            handle ext (S (S fuel)) (Some sd) m0
            = match
                handle ext fuel (TaskNodes (Define (agg m)) !! "")
                  (emit (EvLookup ""
                           (bool_decide
                              (is_Some (TaskNodes (Define (agg m)) !! ""))))
                     m4)
              with
              | (Some _, m') => (Some false, m')
              | (None, m') => (None, m')
              end).
  { intros fuel. rewrite handle_node. fold m0.
    rewrite Herr. cbn [exec_error]. cbv zeta.
    unfold failed, handleTaskError.
    rewrite deref_entered, Herr. cbn [settle]. rewrite result_fail.
    rewrite decide_True by done. unfold successor.
    cbn [agg on_agg entered_machine Define set_FlowError set_status set_Flow].
    change (Define (agg m0)) with (Define (agg m)). rewrite Hclean.
    rewrite bool_decide_eq_true_2 by done.
    fold m0 m2 m3.
    rewrite handle_node, Hok. cbn [exec_error]. cbv zeta.
    rewrite decide_True by done. fold m4.
    unfold proceed, successor. rewrite Hend, Hdef.
    by destruct (handle ext fuel _ _) as [[b|] m']. }
  split.
  - intros fuel b m' Hrun.
    rewrite start_eq, Hstart in Hrun. fold m0 in Hrun.
    destruct fuel as [|[|fuel]]; [done | |].
    { rewrite handle_node in Hrun. fold m0 in Hrun.
      rewrite Herr in Hrun. cbn [exec_error] in Hrun.
      unfold failed, handleTaskError in Hrun.
      rewrite decide_True in Hrun by done. by cbn in Hrun. }
    rewrite Hwalk in Hrun.
    set (m5 := emit _ m4) in Hrun.
    destruct (continues_handle fuel (TaskNodes (Define (agg m)) !! "") m5)
      as (new & Hnew & _).
    destruct (handle ext fuel _ m5) as [[b'|] m'']; [|done].
    injection Hrun as <- <-. cbn [snd] in Hnew.
    assert (Hfinal : mem (UpdateWorkFlowDetail (complete false m''))
              = mem m ++ [fail ext e (out_node (ran ext sd m0))]
                      ++ [success ext None (out_node (ran ext cd m3))]
                      ++ new).
    { change (mem (UpdateWorkFlowDetail (complete false m'')))
        with (mem m'').
      rewrite Hnew. change (mem m5) with (mem m4).
      by rewrite Hmem, <- !app_assoc. }
    assert (Hfirst : mem (UpdateWorkFlowDetail (complete false m''))
                     !! length (mem m)
              = Some (fail ext e (out_node (ran ext sd m0)))).
    { rewrite Hfinal. by apply list_lookup_middle. }
    assert (Hsecond : mem (UpdateWorkFlowDetail (complete false m''))
                      !! S (length (mem m))
              = Some (success ext None (out_node (ran ext cd m3)))).
    { rewrite Hfinal, (app_assoc (mem m)).
      apply list_lookup_middle. rewrite length_app. simpl. lia. }
    split_and!; [done | done | |].
    + unfold deref. by rewrite (list_lookup_total_correct _ _ _ Hfirst).
    + unfold deref. by rewrite (list_lookup_total_correct _ _ _ Hsecond).
  - intros Hnone fuel walk r.
    set (m5 := set_status constants.WorkFlowStatusFinished
                 (emit (EvLookup "" false) m4)).
    assert (Hw : walk = (Some false, m5)).
    { subst walk. cbn [Nat.add]. rewrite Hwalk, Hnone.
      rewrite bool_decide_eq_false_2 by (by intros [? ?]).
      by rewrite handle_nil. }
    assert (Hr : r = (Some false,
                UpdateWorkFlowDetail
                  (set_status constants.WorkFlowStatusError (snd walk)))).
    { subst r. rewrite start_eq, Hstart. fold m0. fold walk.
      by rewrite Hw. }
    rewrite Hr, Hw. cbn [fst snd]. split_and!; try done.
    + unfold deref. cbn [mem UpdateWorkFlowDetail emit set_status on_agg].
      change (mem m5) with (mem m4). rewrite Hmem. cbn [app].
      by rewrite list_lookup_total_middle.
    + unfold deref. cbn [mem UpdateWorkFlowDetail emit set_status on_agg].
      change (mem m5) with (mem m4). rewrite Hmem, app_assoc.
      rewrite list_lookup_total_middle; [done|].
      rewrite length_app. simpl. lia.
Qed.

(** *** Successors that name no node *)


End Facts.

(** C10 as stated fails: an executor that finishes its node itself leaves the
    record of a node of another return type Finished, not Processing. *)
Lemma other_return_type_not_processing :
  ¬ (∀ (ext : Externals string) fuel d m,
       DefReturnType d ≠ SyncFuncNode →
       DefReturnType d ≠ PollingNode →
       out_ret (ran ext d m) = Returned None →
       let r := handle ext (S fuel) (Some d) m in
       fst r = Some true
       ∧ NodeStatus (deref (snd r) (length (mem m)))
         = constants.WorkFlowStatusProcessing).
Proof.
  intros H.
  destruct (H (demo.platform demo.still_running 3) 0 demo.odd_node
              (demo.created [demo.odd_node])) as [_ Hstatus];
    [done | done | done |].
  vm_compute in Hstatus. discriminate.
Qed.

(** C2 as stated fails: a clean-up node that is a PollingNode has an executor
    that returns no error and an empty success event, and yet, with an oracle
    that never finishes, its polling times out: [start] returns false and
    leaves the workflow Error, as stated, but the record of the clean-up
    node ends Error, not Finished. *)
Lemma fail_path_cleanup_not_finished :
  ¬ (∀ (ext : Externals string) sd cd e (m : Machine string) fuel b m',
       let m0 := set_status constants.WorkFlowStatusProcessing m in
       let m3 :=
         emit (EvLookup (FailEvent sd) true)
           (on_agg
              (set_FlowError
                 (Some (Errorf (fmt_Sprintf ext (error_text ext e)))))
              (entered_machine ext sd m0)) in
       TaskNodes (Define (agg m)) !! "start" = Some sd →
       out_ret (ran ext sd m0) = Returned (Some e) →
       FailEvent sd ≠ "" →
       TaskNodes (Define (agg m)) !! FailEvent sd = Some cd →
       out_ret (ran ext cd m3) = Returned None →
       SuccessEvent cd = "" →
       start ext fuel m = (Some b, m') →
       b = false
       ∧ Status (Flow (agg m')) = constants.WorkFlowStatusError
       ∧ NodeStatus (deref m' (S (length (mem m))))
         = constants.WorkFlowStatusFinished).
Proof.
  intros H.
  destruct (H demo.quiet demo.start_node demo.waiting_cleanup (Errorf "boom")
              demo.with_waiting_cleanup 6 false
              (snd (start demo.quiet 6 demo.with_waiting_cleanup)))
    as (_ & _ & Hstatus).
  - by vm_compute.
  - done.
  - done.
  - by vm_compute.
  - done.
  - done.
  - by vm_compute.
  - vm_compute in Hstatus. discriminate.
Qed.


(** ** The claims on concrete workflows *)

(** Without validation nothing stops a dangling name: the look-up finds no
    node and the walk ends there as if the name were empty. *)
Example dangling_successor_is_terminal :
  validate (demo.define [demo.dangling]) = false
  ∧ fst (start demo.quiet 3 (demo.created [demo.dangling])) = Some true
  ∧ EvLookup "missing" false
    ∈ trace (snd (start demo.quiet 3 (demo.created [demo.dangling]))).
Proof.
  split_and!; [by vm_compute | by vm_compute |].
  vm_compute. do 2 constructor.
Qed.


(** Three turns allowed, an oracle that never finishes: three queries, then
    false. *)
Lemma polling_node_times_out_witness :
  DefReturnType demo.wait_node = PollingNode
  ∧ (0 ≤ maxPollingSequence demo.quiet < 2 ^ 31 - 1)%Z
  ∧ queries
      (trace (snd (handle demo.quiet 5 (Some demo.wait_node)
                     (demo.created [demo.wait_node]))))
    = 3
  ∧ fst (handle demo.quiet 5 (Some demo.wait_node)
           (demo.created [demo.wait_node]))
    = Some false.
Proof.
  assert (Hmax : (0 ≤ maxPollingSequence demo.quiet < 2 ^ 31 - 1)%Z)
    by (cbn; lia).
  destruct (polling_node_times_out demo.quiet 0 demo.wait_node
              (demo.created [demo.wait_node]) eq_refl eq_refl
              ltac:(discriminate) (λ _ _, eq_refl) Hmax)
    as (_ & _ & _ & _ & _ & Hend).
  destruct (Hend eq_refl) as (Hr & Hq & _).
  split; [reflexivity|]. split; [exact Hmax|]. split; [exact Hq|].
  exact (f_equal fst Hr).
Defined.


(** A single SyncFuncNode without successor: the walk ends with success. *)
Lemma sync_node_proceeds_witness :
  DefReturnType demo.cleanup_node = SyncFuncNode
  ∧ out_ret (ran demo.quiet demo.cleanup_node
               (demo.created [demo.cleanup_node]))
    = Returned None
  ∧ fst (handle demo.quiet 2 (Some demo.cleanup_node)
           (demo.created [demo.cleanup_node]))
    = Some true.
Proof.
  destruct (sync_node_proceeds demo.quiet 0 demo.cleanup_node
              (demo.created [demo.cleanup_node]) eq_refl eq_refl)
    as (_ & _ & _ & Hend).
  split_and!; [done | done |].
  rewrite Hend; [done|]. vm_compute. reflexivity.
Defined.

(** A failing executor and no fail event: false, after one execution. *)
Lemma executor_error_takes_fail_path_witness :
  out_ret (ran demo.quiet demo.lone_broken (demo.created [demo.lone_broken]))
  = Returned (Some (Errorf "boom"))
  ∧ fst (handle demo.quiet 1 (Some demo.lone_broken)
           (demo.created [demo.lone_broken]))
    = Some false
  ∧ executions
      (trace (snd (handle demo.quiet 1 (Some demo.lone_broken)
                     (demo.created [demo.lone_broken]))))
    = 1.
Proof.
  destruct (executor_error_takes_fail_path demo.quiet 0 demo.lone_broken
              (demo.created [demo.lone_broken]) (Errorf "boom") eq_refl)
    as (_ & Hempty & _).
  destruct (Hempty eq_refl) as [Hr Hexec].
  split_and!; [done | by rewrite Hr | by rewrite Hr].
Defined.


(** Destroying a workflow while its only node runs. *)
Lemma destroy_cancels_witness :
  CurrentNode (agg demo.in_flight) = Some 0
  ∧ Status (Flow (agg (destroy demo.quiet "stop" demo.in_flight)))
    = constants.WorkFlowStatusCanceled
  ∧ workflow.Result <$> mem (destroy demo.quiet "stop" demo.in_flight) !! 0
    = Some "stop".
Proof.
  pose proof (destroy_cancels demo.quiet "stop" demo.in_flight) as H.
  cbv zeta in H. destruct H as (Hstatus & _ & Hnode & _).
  split_and!; [reflexivity | exact Hstatus |].
  change (CurrentNode (agg demo.in_flight)) with (Some 0) in Hnode.
  destruct Hnode as (_ & Hfail & _).
  destruct (Hfail (mem demo.in_flight !!! 0) eq_refl) as (Hlook & _ & _).
  by rewrite Hlook.
Defined.


(** A node of another return type whose executor leaves the status alone
    stays in Processing. *)
Lemma other_return_type_stops_witness :
  DefReturnType demo.lone_callback ≠ SyncFuncNode
  ∧ DefReturnType demo.lone_callback ≠ PollingNode
  ∧ handle demo.quiet 1 (Some demo.lone_callback)
      (demo.created [demo.lone_callback])
    = (Some true,
       entered_machine demo.quiet demo.lone_callback
         (demo.created [demo.lone_callback]))
  ∧ NodeStatus
      (deref (snd (handle demo.quiet 1 (Some demo.lone_callback)
                     (demo.created [demo.lone_callback]))) 0)
    = constants.WorkFlowStatusProcessing.
Proof.
  assert (Hs : DefReturnType demo.lone_callback ≠ SyncFuncNode)
    by discriminate.
  assert (Hp : DefReturnType demo.lone_callback ≠ PollingNode)
    by discriminate.
  destruct (other_return_type_stops demo.quiet 0 demo.lone_callback
              (demo.created [demo.lone_callback]) Hs Hp eq_refl)
    as (Hr & _ & Hkept & _).
  split_and!; [done | done | exact Hr | by apply Hkept].
Defined.

(** ** The further properties on concrete workflows *)

(** The run with a clean-up node keeps the current node the last of the
    history. *)
Lemma current_node_is_last_of_history_witness :
  current_is_last demo.with_cleanup
  ∧ current_is_last (snd (start demo.quiet 3 demo.with_cleanup)).
Proof.
  destruct (current_node_is_last_of_history demo.quiet 3 None
              demo.with_cleanup eq_refl) as [_ Hstart].
  by split.
Defined.

(** Destroying the workflow after that run fails the clean-up node, which
    the run had left Finished. *)
Lemma destroy_after_run_fails_last_node_witness :
  current_is_last demo.with_cleanup
  ∧ last (Nodes (agg (snd (start demo.quiet 3 demo.with_cleanup)))) = Some 1
  ∧ NodeStatus (deref (snd (start demo.quiet 3 demo.with_cleanup)) 1)
    = constants.WorkFlowStatusFinished
  ∧ NodeStatus
      (deref (destroy demo.quiet "stop"
                (snd (start demo.quiet 3 demo.with_cleanup))) 1)
    = constants.WorkFlowStatusError.
Proof.
  assert (Hlast :
    last (Nodes (agg (snd (start demo.quiet 3 demo.with_cleanup)))) = Some 1)
    by (vm_compute; reflexivity).
  assert (Hnode :
    mem (snd (start demo.quiet 3 demo.with_cleanup)) !! 1
    = Some (deref (snd (start demo.quiet 3 demo.with_cleanup)) 1))
    by (vm_compute; reflexivity).
  destruct (destroy_after_run_fails_last_node demo.quiet 3 "stop"
              demo.with_cleanup 1 _ eq_refl Hlast Hnode)
    as (_ & _ & Herror & _).
  split_and!; [reflexivity | exact Hlast | by vm_compute | exact Herror].
Defined.

(** In the run with a clean-up node both executors ran on persisted
    records. *)
Lemma executors_run_after_their_record_is_persisted_witness :
  audited (trace demo.with_cleanup)
  ∧ audited (trace (snd (start demo.quiet 3 demo.with_cleanup))).
Proof.
  destruct (executors_run_after_their_record_is_persisted demo.quiet 3 None
              demo.with_cleanup I) as [_ Hstart].
  by split.
Defined.

(** The run with a clean-up node returns false and ends in Error. *)
Lemma start_finalises_status_witness :
  fst (start demo.quiet 3 demo.with_cleanup) = Some false
  ∧ Status (Flow (agg (snd (start demo.quiet 3 demo.with_cleanup))))
    = constants.WorkFlowStatusError.
Proof.
  assert (Hrun : start demo.quiet 3 demo.with_cleanup
                 = (Some false, snd (start demo.quiet 3 demo.with_cleanup)))
    by (vm_compute; reflexivity).
  destruct (start_finalises_status demo.quiet 3 demo.with_cleanup false _ Hrun)
    as (Hstatus & _ & _).
  split; [exact (f_equal fst Hrun) | exact Hstatus].
Defined.

(** A polling node finished by its executor: no query at all. *)
Lemma polling_node_already_finished_witness :
  DefReturnType demo.eager_wait = PollingNode
  ∧ NodeStatus
      (out_node (ran demo.quiet demo.eager_wait
                   (demo.created [demo.eager_wait])))
    = constants.WorkFlowStatusFinished
  ∧ handle demo.quiet 2 (Some demo.eager_wait) (demo.created [demo.eager_wait])
    = (Some true,
       set_status constants.WorkFlowStatusFinished
         (emit (EvLookup "" false)
            (entered_machine demo.quiet demo.eager_wait
               (demo.created [demo.eager_wait])))).
Proof.
  destruct (polling_node_already_finished demo.quiet 1 demo.eager_wait
              (demo.created [demo.eager_wait]) eq_refl eq_refl eq_refl)
    as (Hstep & _).
  split_and!; [reflexivity | reflexivity |].
  rewrite Hstep. vm_compute. reflexivity.
Defined.

(** The oracle cannot be reached: one query, then false. *)
Lemma polling_node_query_fails_witness :
  GetStatus demo.offline 0 "" = inr (Errorf "unreachable")
  ∧ fst (handle demo.offline 2 (Some demo.wait_node)
           (demo.created [demo.wait_node]))
    = Some false
  ∧ queries
      (trace (snd (handle demo.offline 2 (Some demo.wait_node)
                     (demo.created [demo.wait_node]))))
    = 1.
Proof.
  assert (Hrun : ∀ j, (S j < 1)%nat →
            running (GetStatus demo.offline
                       (queries (trace (demo.created [demo.wait_node])) + j)
                       "")) by (intros j Hj; lia).
  destruct (polling_node_query_fails demo.offline 0 1 (Errorf "unreachable")
              demo.wait_node (demo.created [demo.wait_node])
              eq_refl eq_refl ltac:(discriminate) ltac:(lia)
              ltac:(cbn; lia) ltac:(cbn; lia) Hrun eq_refl)
    as (_ & _ & _ & _ & Hend).
  destruct (Hend eq_refl) as [Hfalse Hq].
  split_and!; [reflexivity | exact Hfalse | exact Hq].
Defined.

(** The operation failed on the platform: one query, then false. *)
Lemma polling_node_operation_fails_witness :
  fst (handle demo.faulty 2 (Some demo.wait_node)
         (demo.created [demo.wait_node]))
  = Some false
  ∧ queries
      (trace (snd (handle demo.faulty 2 (Some demo.wait_node)
                     (demo.created [demo.wait_node]))))
    = 1.
Proof.
  assert (Hrun : ∀ j, (S j < 1)%nat →
            running (GetStatus demo.faulty
                       (queries (trace (demo.created [demo.wait_node])) + j)
                       "")) by (intros j Hj; lia).
  destruct (polling_node_operation_fails demo.faulty 0 1 _
              demo.wait_node (demo.created [demo.wait_node])
              eq_refl eq_refl ltac:(discriminate) ltac:(lia)
              ltac:(cbn; lia) ltac:(cbn; lia) Hrun eq_refl eq_refl)
    as (_ & _ & _ & _ & Hend).
  destruct (Hend eq_refl) as [Hfalse Hq].
  split; [exact Hfalse | exact Hq].
Defined.

(** Three turns allowed: the loop is left after at most three queries. *)
Lemma polling_node_wait_is_bounded_witness :
  (0 ≤ maxPollingSequence demo.quiet < 2 ^ 31 - 1)%Z
  ∧ ∃ k m',
      (k ≤ 3)%nat
      ∧ queries (trace m') = k
      ∧ (handle demo.quiet 5 (Some demo.wait_node)
           (demo.created [demo.wait_node])
         = failed demo.quiet (handle demo.quiet 4) 0 demo.wait_node m'
         ∨ handle demo.quiet 5 (Some demo.wait_node)
             (demo.created [demo.wait_node])
           = proceed (handle demo.quiet 4) demo.wait_node m').
Proof.
  assert (Hmax : (0 ≤ maxPollingSequence demo.quiet < 2 ^ 31 - 1)%Z)
    by (cbn; lia).
  destruct (polling_node_wait_is_bounded demo.quiet 0 demo.wait_node
              (demo.created [demo.wait_node]) eq_refl eq_refl
              ltac:(discriminate) Hmax)
    as (k & m' & Hk & Hq & _ & Hleft).
  split; [exact Hmax|]. exists k, m'.
  split; [exact Hk|]. split; [exact Hq|]. exact Hleft.
Defined.

(** With the largest 32-bit integer as bound the loop is not left. *)
Lemma polling_never_times_out_at_max_int32_witness :
  maxPollingSequence demo.unbounded = (2 ^ 31 - 1)%Z
  ∧ fst (polling demo.unbounded (handle demo.unbounded 0) 6 0 0
           demo.wait_node
           (entered_machine demo.unbounded demo.wait_node
              (demo.created [demo.wait_node])))
    = None.
Proof.
  destruct (polling_never_times_out_at_max_int32 demo.unbounded
              (handle demo.unbounded 0) 6 0 0 demo.wait_node
              (entered_machine demo.unbounded demo.wait_node
                 (demo.created [demo.wait_node]))
              eq_refl (λ _ _, eq_refl)) as [Hnone _].
  split; [reflexivity | exact Hnone].
Defined.

(** A node that is its own successor: after six steps the walk has not
    returned and has run the executor six times. *)
Lemma self_successor_never_returns_witness :
  TaskNodes (Define (agg (demo.created [demo.loop]))) !! "start"
  = Some demo.loop
  ∧ fst (handle demo.quiet 6 (Some demo.loop) (demo.created [demo.loop]))
    = None
  ∧ executions
      (trace (snd (handle demo.quiet 6 (Some demo.loop)
                     (demo.created [demo.loop]))))
    = 6.
Proof.
  assert (Hself :
    TaskNodes (Define (agg (demo.created [demo.loop])))
    !! SuccessEvent demo.loop = Some demo.loop) by (vm_compute; reflexivity).
  destruct (self_successor_never_returns demo.quiet demo.loop 6
              (demo.created [demo.loop]) Hself eq_refl (λ _ _, eq_refl))
    as [Hnone Hexec].
  split_and!; [exact Hself | exact Hnone | exact Hexec].
Defined.

(** A single SyncFuncNode: the walk returns true with the workflow
    Finished. *)
Lemma success_means_finished_witness :
  fst (handle demo.quiet 2
         (TaskNodes (Define (agg (demo.created [demo.cleanup_node])))
          !! "cleanup")
         (demo.created [demo.cleanup_node]))
  = Some true
  ∧ Status
      (Flow (agg (snd (handle demo.quiet 2
                         (TaskNodes
                            (Define (agg (demo.created [demo.cleanup_node])))
                          !! "cleanup")
                         (demo.created [demo.cleanup_node])))))
    = constants.WorkFlowStatusFinished.
Proof.
  assert (Hknown :
    known_types (TaskNodes (Define (agg (demo.created [demo.cleanup_node]))))).
  { apply (bool_decide_unpack (known_types _)). vm_compute. exact I. }
  assert (Htrue :
    fst (handle demo.quiet 2
           (TaskNodes (Define (agg (demo.created [demo.cleanup_node])))
            !! "cleanup")
           (demo.created [demo.cleanup_node]))
    = Some true) by (vm_compute; reflexivity).
  split; [exact Htrue|].
  exact (success_means_finished demo.quiet 2 "cleanup"
           (demo.created [demo.cleanup_node]) Hknown Htrue).
Defined.

(** The failing start node with its clean-up node, a SyncFuncNode: [start]
    returns false and ends in Error while the clean-up node is Finished. *)
Lemma start_fail_path_ends_in_error_witness :
  TaskNodes (Define (agg demo.with_cleanup)) !! "start" = Some demo.start_node
  ∧ TaskNodes (Define (agg demo.with_cleanup)) !! "cleanup"
    = Some demo.cleanup_node
  ∧ DefReturnType demo.cleanup_node = SyncFuncNode
  ∧ TaskNodes (Define (agg demo.with_cleanup)) !! "" = None
  ∧ fst (start demo.quiet 3 demo.with_cleanup) = Some false
  ∧ Status (Flow (agg (snd (start demo.quiet 3 demo.with_cleanup))))
    = constants.WorkFlowStatusError
  ∧ NodeStatus (deref (snd (start demo.quiet 3 demo.with_cleanup)) 0)
    = constants.WorkFlowStatusError
  ∧ NodeStatus (deref (snd (start demo.quiet 3 demo.with_cleanup)) 1)
    = constants.WorkFlowStatusFinished.
Proof.
  assert (Hstart : TaskNodes (Define (agg demo.with_cleanup)) !! "start"
                   = Some demo.start_node) by (vm_compute; reflexivity).
  assert (Hclean : TaskNodes (Define (agg demo.with_cleanup)) !! "cleanup"
                   = Some demo.cleanup_node) by (vm_compute; reflexivity).
  assert (Hnone : TaskNodes (Define (agg demo.with_cleanup)) !! "" = None)
    by (vm_compute; reflexivity).
  destruct (start_fail_path_ends_in_error demo.quiet
              demo.start_node demo.cleanup_node (Errorf "boom")
              demo.with_cleanup Hstart eq_refl
              ltac:(discriminate) Hclean eq_refl eq_refl)
    as [_ Hsync].
  destruct (Hsync eq_refl) as [_ Htotal].
  destruct (Htotal Hnone 0)
    as (_ & _ & Hr & Herror & Hfailed & Hfinished & _).
  split_and!; [done | done | done | done | | done | done | done].
  exact (f_equal fst Hr).
Defined.

(** The oracle finishes on the second of three turns and the node has no
    successor: [handle] returns true after two ticks and two queries, with
    the workflow Finished and the record of the node Finished with the
    result of the oracle. *)
Lemma polling_node_finishes_witness :
  DefReturnType demo.wait_node = PollingNode
  ∧ running (GetStatus demo.prompt 0 "")
  ∧ finished "done" (GetStatus demo.prompt 1 "")
  ∧ handle demo.prompt 4 (Some demo.wait_node) (demo.created [demo.wait_node])
    = (Some true,
       set_status constants.WorkFlowStatusFinished
         (emit (EvLookup "" false)
            (update 0 (success demo.prompt (Some "done"))
               (waited 2 ""
                  (entered_machine demo.prompt demo.wait_node
                     (demo.created [demo.wait_node]))))))
  ∧ NodeStatus
      (deref (snd (handle demo.prompt 4 (Some demo.wait_node)
                     (demo.created [demo.wait_node]))) 0)
    = "Finished"
  ∧ workflow.Result
      (deref (snd (handle demo.prompt 4 (Some demo.wait_node)
                     (demo.created [demo.wait_node]))) 0)
    = "done"
  ∧ Status
      (Flow (agg (snd (handle demo.prompt 4 (Some demo.wait_node)
                         (demo.created [demo.wait_node])))))
    = "Finished"
  ∧ queries
      (trace (snd (handle demo.prompt 4 (Some demo.wait_node)
                     (demo.created [demo.wait_node]))))
    = 2
  ∧ ticks
      (trace (snd (handle demo.prompt 4 (Some demo.wait_node)
                     (demo.created [demo.wait_node]))))
    = 2.
Proof.
  assert (Hrun : ∀ j, (S j < 2)%nat →
            running (GetStatus demo.prompt
                       (queries (trace (demo.created [demo.wait_node])) + j)
                       ""))
    by (intros [|j] Hj; [reflexivity | lia]).
  destruct (polling_node_finishes demo.prompt 1 2 "done" demo.wait_node
              (demo.created [demo.wait_node]) eq_refl eq_refl
              ltac:(discriminate) ltac:(lia) ltac:(cbn; lia) ltac:(cbn; lia)
              Hrun (conj eq_refl eq_refl))
    as (_ & _ & _ & _ & _ & _ & _ & Hkept & Hstatus & _ & Hend & _).
  pose proof (Hend eq_refl) as Hr. cbv zeta in Hr.
  change (S (2 + 1)) with 4 in Hr.
  split_and!; [done | reflexivity | by split | | | | | |].
  - exact Hr.
  - exact Hstatus.
  - unfold deref. by rewrite (list_lookup_total_correct _ _ _ Hkept).
  - by rewrite Hr.
  - by rewrite Hr.
  - by rewrite Hr.
Defined.

